(** * lattiq/mailer: the resilience core and the send orchestration

    A shallow embedding of the Go sources

    - [internal/core/types.go]: addresses, e-mails, the error types and their
      classification ([IsRetryable], [IsTemporary], [GetRetryAfter]);
    - the error file of package [mailer]: sentinels, [RateLimitError],
      [BatchError];
    - the resilience file of package [mailer]: [RetryManager], [RateLimiter],
      [CircuitBreaker];
    - the client file of package [mailer]: [Client.Send], [Client.SendBatch],
      [Client.SendTemplate], [Client.Close] and their helpers;
    - the providers of [internal/providers]: the loop of their [SendBatch].

    Conventions.  A [time.Duration] and a [time.Time] are integers counting
    nanoseconds; a Go [int] is a 64-bit integer whose increments wrap; a
    [float64] is a library parameter, and a binary64 value of the Standard
    Library's [SpecFloat] where its rounding matters.  Every
    piece of mutable state a call can touch lives in one [Store]: the outside
    world the providers act on ([Env]: wall clock, runtime entropy, provider
    internals) and the client's own mutable fields.  A Go [func() error]
    closure is a state transformer [Store -> option error * Store], [None]
    being the [nil] error.  The OpenTelemetry spans of the client only observe
    a call and are left out. *)

From Stdlib Require Import ZArith List Ascii String Bool Lia.
From Stdlib Require Import DecimalString.
Import ListNotations.

Set Warnings "-register-all".

#[local] Open Scope string_scope.
#[local] Open Scope Z_scope.

(** ** Go run-time and standard-library pieces outside the repository *)

(** What the sources import from the Go distribution and use as a black box.
    [float64] arithmetic is kept abstract here: [backoffProduct d m k] stands
    for the expression
    [time.Duration(float64(d) * math.Pow(m, float64(k)))] and [tenthOf d] for
    [int64(float64(d) * 0.1)].  The instance [binary64] further down gives
    both their meaning in IEEE 754 arithmetic. *)
Class GoLib : Type := {
  float64 : Type;
  backoffProduct : Z -> float64 -> Z -> Z;
  tenthOf : Z -> Z;
  (** [mime.QEncoding.Encode("UTF-8", s)] *)
  QEncode : string -> string;
  (** whether [mail.ParseAddress(s)] returns a [nil] error *)
  ParseAddressOk : string -> bool;
  (** [strings.TrimSpace] *)
  TrimSpace : string -> string
}.

(** *** Machine integers *)

Definition MaxInt64 : Z := 9223372036854775807.
Definition MinInt64 : Z := -9223372036854775808.

(** Two's-complement wrap-around of a 64-bit signed result. *)
Definition wrap64 (z : Z) : Z := (z + 2 ^ 63) mod 2 ^ 64 - 2 ^ 63.

(** [x++] on an [int]. *)
Definition incr (x : Z) : Z := wrap64 (x + 1).

(** Go's [/] on [int64]: truncated quotient; the caller checks the divisor. *)
Definition div64 (a b : Z) : Z := wrap64 (Z.quot a b).

(** [strconv.Itoa]. *)
Definition Itoa (i : Z) : string := NilZero.string_of_int (Z.to_int i).

(** ** internal/core/types.go *)

Module Address.
Record t : Type := mk { Name : string; Email : string }.
End Address.

Module Email.
(** [Attachments], [Headers], [Priority] and [Metadata] play no part in
    validation or orchestration; headers and metadata are kept as
    association lists. *)
Record t : Type := mk {
  From : Address.t;
  To : list Address.t;
  CC : list Address.t;
  BCC : list Address.t;
  Subject : string;
  HTMLBody : string;
  TextBody : string;
  Headers : list (string * string);
  Metadata : list (string * string)
}.
End Email.

Module SendResult.
Record t : Type := mk {
  MessageID : string;
  Provider : string;
  Timestamp : Z
}.
End SendResult.

(** The Go [error] values the package builds or meets.

    - [Sentinel m] is [errors.New(m)];
    - [EValidation] is a [*ValidationError];
    - [EProvider] is a [*ProviderError], [Cause] being what [Unwrap] returns;
    - [ERateLimit] is a [*RateLimitError];
    - [EBatch] is a [*BatchError] with its [BatchItemError]s as pairs
      (index, error);
    - [EWrap p e] is [fmt.Errorf(p + "%w", e)];
    - [ETemplate] is a [*TemplateError];
    - [EForeign] is an error of a type defined elsewhere (a provider SDK, the
      [context] package): all the package can learn of it is which of the
      optional methods [Retryable], [Temporary], [RetryAfter] and [Unwrap] it
      has and what they return.  Foreign types with an [As] method or an
      [Unwrap] returning several errors are not covered. *)
Inductive error : Type :=
| Sentinel (msg : string)
| EValidation (Field Message : string)
| EProvider (Provider Code Message : string) (StatusCode : Z)
            (IsRetryable IsTemporary : bool) (Cause : option error)
| ERateLimit (Message : string) (RetryAfterDuration : Z) (Limit : Z) (Window : Z)
| EBatch (Message : string) (Errors : list (Z * option error))
         (Total Failed : Z)
| EWrap (prefix : string) (inner : error)
| ETemplate (Template Operation Message : string) (Cause : option error)
| EForeign (retryable temporary : option bool) (retryAfter : option Z)
           (cause : option error).

Module BatchFailure.
Record t : Type := mk { Index : Z; Email : Email.t; Error : option error }.
End BatchFailure.

Module BatchResult.
Record t : Type := mk {
  Total : Z;
  Successful : list SendResult.t;
  Failed : list BatchFailure.t;
  Provider : string
}.
End BatchResult.

(** Sentinels of package [mailer]. *)
Definition ErrRateLimited : error := Sentinel "rate limited".
Definition ErrCircuitBreakerOpen : error := Sentinel "circuit breaker open".
Definition ErrClientClosed : error := Sentinel "client closed".

(** [context.Canceled] is an [errors.New] value; [context.DeadlineExceeded]
    has [Timeout] and [Temporary] methods, both answering [true]. *)
Definition context_Canceled : error := Sentinel "context canceled".
Definition context_DeadlineExceeded : error :=
  EForeign None (Some true) None None.

Definition NewRateLimitError (message : string) (retryAfter : Z) : error :=
  ERateLimit message retryAfter 0 0.

(** The type assertion [err.(RetryableError)]: only [*ProviderError] has a
    [Retryable] method among the package's own types. *)
Definition asRetryable (e : error) : option bool :=
  match e with
  | EProvider _ _ _ _ r _ _ => Some r
  | EForeign r _ _ _ => r
  | _ => None
  end.

(** [errors.As(err, &pe)] for [pe : *ProviderError]: the first
    [*ProviderError] on the [Unwrap] chain, as its [IsRetryable] and
    [IsTemporary] flags. *)
Fixpoint asProviderError (e : error) : option (bool * bool) :=
  match e with
  | EProvider _ _ _ _ r t _ => Some (r, t)
  | EWrap _ inner => asProviderError inner
  | ETemplate _ _ _ (Some c) => asProviderError c
  | EForeign _ _ _ (Some c) => asProviderError c
  | _ => None
  end.

Definition IsRetryable (err : option error) : bool :=
  match err with
  | None => false
  | Some e =>
      match asRetryable e with
      | Some b => b
      | None =>
          match asProviderError e with
          | Some (r, _) => r
          | None => false
          end
      end
  end.

(** Only a type with a [RetryAfter() time.Duration] method answers; a
    [*RateLimitError] has the field [RetryAfterDuration] but no such method. *)
Definition GetRetryAfter (err : option error) : Z :=
  match err with
  | Some (EForeign _ _ (Some d) _) => d
  | _ => 0
  end.

(** ** Validation of addresses and e-mails *)

Section Validation.
Context {lib : GoLib}.

(** [Address.String]. *)
Definition Address_String (a : Address.t) : string :=
  if String.eqb (Address.Name a) "" then Address.Email a
  else QEncode (Address.Name a) ++ " <" ++ Address.Email a ++ ">".

(** [Address.Valid]. *)
Definition Valid (a : Address.t) : bool :=
  if String.eqb (Address.Email a) "" then false
  else ParseAddressOk (Address_String a).

(** The [for i, x := range xs] loops of [Validate]: index of the first
    address that is not [Valid], counting from [i]. *)
Fixpoint firstInvalidFrom (i : Z) (xs : list Address.t) : option Z :=
  match xs with
  | [] => None
  | x :: rest => if Valid x then firstInvalidFrom (i + 1) rest else Some i
  end.

Definition blank (s : string) : bool := String.eqb (TrimSpace s) "".

(** [Email.Validate]. *)
Definition Validate (e : Email.t) : option error :=
  if negb (Valid (Email.From e)) then
    Some (EValidation "from" "invalid or missing sender address")
  else if (Z.of_nat (List.length (Email.To e)) =? 0) then
    Some (EValidation "to" "at least one recipient required")
  else
    match firstInvalidFrom 0 (Email.To e) with
    | Some i =>
        Some (EValidation "to" ("invalid recipient address at index " ++ Itoa i))
    | None =>
    match firstInvalidFrom 0 (Email.CC e) with
    | Some i =>
        Some (EValidation "cc" ("invalid CC address at index " ++ Itoa i))
    | None =>
    match firstInvalidFrom 0 (Email.BCC e) with
    | Some i =>
        Some (EValidation "bcc" ("invalid BCC address at index " ++ Itoa i))
    | None =>
        if blank (Email.Subject e) then
          Some (EValidation "subject" "subject is required")
        else if blank (Email.TextBody e) && blank (Email.HTMLBody e) then
          Some (EValidation "body" "either text or HTML body is required")
        else None
    end end end.

(** [Email.TotalRecipients]. *)
Definition TotalRecipients (e : Email.t) : Z :=
  Z.of_nat (List.length (Email.To e)) + Z.of_nat (List.length (Email.CC e))
  + Z.of_nat (List.length (Email.BCC e)).

End Validation.

(** ** Configuration records *)

Module RetryConfig.
Record t {lib : GoLib} : Type := mk {
  Enabled : bool;
  MaxAttempts : Z;
  InitialDelay : Z;
  MaxDelay : Z;
  Multiplier : float64;
  Jitter : bool
}.
Arguments mk {lib} Enabled MaxAttempts InitialDelay MaxDelay Multiplier Jitter.
End RetryConfig.

Module RateLimitConfig.
Record t : Type := mk {
  Enabled : bool;
  Rate : Z;
  Period : Z;
  Burst : Z;
  PerRecipient : bool
}.
End RateLimitConfig.

Module CircuitBreakerConfig.
Record t : Type := mk {
  Enabled : bool;
  FailureThreshold : Z;
  SuccessThreshold : Z;
  Timeout : Z;
  ResetTimeout : Z
}.
End CircuitBreakerConfig.

(** ** The store *)

Inductive CircuitBreakerState : Type :=
| CircuitBreakerClosed
| CircuitBreakerOpen
| CircuitBreakerHalfOpen.

Definition CircuitBreakerState_eqb (a b : CircuitBreakerState) : bool :=
  match a, b with
  | CircuitBreakerClosed, CircuitBreakerClosed
  | CircuitBreakerOpen, CircuitBreakerOpen
  | CircuitBreakerHalfOpen, CircuitBreakerHalfOpen => true
  | _, _ => false
  end.

(** The zero [time.Time]: 1 January of year 1, in nanoseconds before the Unix
    epoch. *)
Definition zeroTime : Z := -62135596800 * 1000000000.

(** [Time.Sub] saturates at the bounds of [time.Duration]. *)
Definition Time_Sub (t u : Z) : Z :=
  let d := t - u in
  if d >? MaxInt64 then MaxInt64 else if d <? MinInt64 then MinInt64 else d.

(** The mutable fields of a [CircuitBreaker]. *)
Module Breaker.
Record t : Type := mk {
  state : CircuitBreakerState;
  failureCount : Z;
  successCount : Z;
  lastFailTime : Z
}.
End Breaker.

Section Store.
(** [X] is whatever state the providers and the template engine keep or
    reach (network, accounts, caches). *)
Context {X : Type}.

(** The world outside the client.  [entropy] feeds what the run time
    decides at random: [crypto/rand] draws and the choice among several
    ready [select] cases. *)
Record Env : Type := mkEnv {
  clock : Z;
  entropy : list Z;
  ext : X
}.

(** [closed] is the client's flag, [breaker] the fields of its
    [CircuitBreaker], [tokens] the number of values buffered in the
    [RateLimiter]'s channel. *)
Record Store : Type := mkStore {
  env : Env;
  closed : bool;
  breaker : Breaker.t;
  tokens : nat
}.

Definition set_env (s : Store) (e : Env) : Store :=
  mkStore e (closed s) (breaker s) (tokens s).
Definition set_closed (s : Store) (b : bool) : Store :=
  mkStore (env s) b (breaker s) (tokens s).
Definition set_breaker (s : Store) (b : Breaker.t) : Store :=
  mkStore (env s) (closed s) b (tokens s).
Definition set_tokens (s : Store) (n : nat) : Store :=
  mkStore (env s) (closed s) (breaker s) n.
Definition set_clock (e : Env) (t : Z) : Env :=
  mkEnv t (entropy e) (ext e).

(** [time.Now()] and [time.Since(t)]. *)
Definition Now (s : Store) : Z := clock (env s).
Definition Since (s : Store) (t : Z) : Z := Time_Sub (Now s) t.

(** One random choice of the run time; an exhausted source answers
    [false]. *)
Definition flip (e : Env) : bool * Env :=
  match entropy e with
  | z :: rest => (Z.odd z, mkEnv (clock e) rest (ext e))
  | [] => (false, e)
  end.

(** [rand.Int(rand.Reader, big.NewInt(max))] for [max > 0]: a value in
    [[0, max)], or an error when the reader fails. *)
Definition randInt (max : Z) (e : Env) : option Z * Env :=
  match entropy e with
  | z :: rest => (Some (z mod max), mkEnv (clock e) rest (ext e))
  | [] => (None, e)
  end.

(** A [context.Context]: the instant at which its [Done] channel is closed,
    if ever, and the value [Err] returns from then on. *)
Record Context : Type := mkContext {
  cancelledAt : option Z;
  cause : error
}.

Definition ctxDone (ctx : Context) (e : Env) : bool :=
  match cancelledAt ctx with
  | Some t => t <=? clock e
  | None => false
  end.

(** The result of a call that may panic. *)
Inductive outcome (A : Type) : Type :=
| Ret (a : A) (s : Store)
| Panic (reason : string).

End Store.

Arguments Env : clear implicits.
Arguments Store : clear implicits.
Arguments outcome : clear implicits.
Arguments Ret {X A} a s.
Arguments Panic {X A} reason.

(** ** RetryManager *)

Section Resilience.
Context {lib : GoLib} {X : Type}.

(** A [func() error] closure. *)
Definition Work : Type := Store X -> option error * Store X.

(** [RetryManager.calculateDelay]. *)
Definition calculateDelay (cfg : RetryConfig.t) (attempt : Z) (s : Store X)
  : Z * Store X :=
  let delay :=
    backoffProduct (RetryConfig.InitialDelay cfg) (RetryConfig.Multiplier cfg)
                   (attempt - 1) in
  let delay :=
    if delay >? RetryConfig.MaxDelay cfg then RetryConfig.MaxDelay cfg
    else delay in
  if RetryConfig.Jitter cfg then
    let maxJitter := tenthOf delay in
    if maxJitter >? 0 then
      match randInt maxJitter (env s) with
      | (Some jitter, e') => (wrap64 (delay + jitter), set_env s e')
      | (None, e') => (delay, set_env s e')
      end
    else (delay, s)
  else (delay, s).

(** The [select] of [Retry] between [ctx.Done()] and [time.After(delay)].
    The timer is ready [delay] nanoseconds from now (at once when [delay]
    is not positive), the context when it is cancelled; the earlier one
    wins, and the run time chooses when both are ready together.  The
    answer is [ctx.Err()] when the context won. *)
Definition awaitDelay (ctx : Context) (delay : Z) (s : Store X)
  : option error * Store X :=
  let e := env s in
  let fire := clock e + Z.max 0 delay in
  match cancelledAt ctx with
  | None => (None, set_env s (set_clock e fire))
  | Some t =>
      let done := Z.max (clock e) t in
      if done <? fire then (Some (cause ctx), set_env s (set_clock e done))
      else if done =? fire then
        let (pick, e') := flip e in
        ((if pick then Some (cause ctx) else None),
         set_env s (set_clock e' fire))
      else (None, set_env s (set_clock e fire))
  end.

(** The loop of [Retry]; [n] counts the iterations left, so that the loop
    test [attempt <= MaxAttempts] holds exactly when [n] is not [O]. *)
Fixpoint retryLoop (cfg : RetryConfig.t) (ctx : Context) (fn : Work)
         (n : nat) (attempt : Z) (lastErr : option error) (s : Store X)
  : option error * Store X :=
  match n with
  | O => (lastErr, s)
  | S n' =>
      let (err, s1) := fn s in
      match err with
      | None => (None, s1)
      | Some _ =>
          if negb (IsRetryable err) then (err, s1)
          else if attempt =? RetryConfig.MaxAttempts cfg then (err, s1)
          else
            let (delay, s2) := calculateDelay cfg attempt s1 in
            let delay :=
              if GetRetryAfter err >? 0 then GetRetryAfter err else delay in
            match awaitDelay ctx delay s2 with
            | (Some cerr, s3) => (Some cerr, s3)
            | (None, s3) => retryLoop cfg ctx fn n' (attempt + 1) err s3
            end
      end
  end.

(** [RetryManager.Retry]. *)
Definition Retry (cfg : RetryConfig.t) (ctx : Context) (fn : Work) : Work :=
  fun s =>
    if negb (RetryConfig.Enabled cfg) then fn s
    else retryLoop cfg ctx fn (Z.to_nat (RetryConfig.MaxAttempts cfg)) 1 None s.

(** ** RateLimiter *)

(** The first statement of [refillTokens],
    [time.NewTicker(rl.config.Period / time.Duration(rl.config.Rate))]: the
    panic it raises, if any.  The division panics on a zero rate and
    [NewTicker] on an interval that is not positive. *)
Definition newTicker (cfg : RateLimitConfig.t) : option string :=
  if RateLimitConfig.Rate cfg =? 0
  then Some "runtime error: integer divide by zero"
  else if div64 (RateLimitConfig.Period cfg) (RateLimitConfig.Rate cfg) <=? 0
  then Some "non-positive interval for NewTicker"
  else None.

(** The body of the loop of [refillTokens], run at every tick: a
    non-blocking send on the channel. *)
Definition refillTick (cfg : RateLimitConfig.t) (s : Store X) : Store X :=
  if (Z.of_nat (tokens s) <? RateLimitConfig.Burst cfg)
  then set_tokens s (S (tokens s)) else s.

(** [refillTokens], the goroutine of the limiter, through its first [ticks]
    ticks: it creates its ticker, then runs the loop body at every tick.  It
    never returns, and a panic in it ends the process. *)
Definition refillTokens (cfg : RateLimitConfig.t) (ticks : nat) (s : Store X)
  : outcome X unit :=
  match newTicker cfg with
  | Some reason => Panic reason
  | None => Ret tt (Nat.iter ticks (refillTick cfg) s)
  end.

(** [NewRateLimiter]: a channel of capacity [Burst], filled, and the
    goroutine [refillTokens] started.  [make] panics on a negative capacity.
    No tick has come when the call returns.  A panic of the goroutine ends
    the process whatever the caller does next: it is the outcome of the call
    here.  The [lastRefill] field is written here and never read. *)
Definition NewRateLimiter (cfg : RateLimitConfig.t) (s : Store X)
  : outcome X unit :=
  if RateLimitConfig.Burst cfg <? 0 then Panic "makechan: size out of range"
  else refillTokens cfg 0 (set_tokens s (Z.to_nat (RateLimitConfig.Burst cfg))).

(** Which case the [select] of [Wait] runs. *)
Inductive waitCase : Type := CaseDone | CaseToken | CaseDefault.

Definition selectWait (ctx : Context) (s : Store X) : waitCase * Store X :=
  match ctxDone ctx (env s), tokens s with
  | true, S n =>
      let (pick, e') := flip (env s) in
      if pick then (CaseDone, set_env s e')
      else (CaseToken, set_tokens (set_env s e') n)
  | true, O => (CaseDone, s)
  | false, S n => (CaseToken, set_tokens s n)
  | false, O => (CaseDefault, s)
  end.

(** The loop [for i := 0; i < tokensNeeded; i++] of [Wait], [n] iterations
    left.  The call is taken in isolation: no tick of [refillTokens] and no
    other caller comes in between two iterations. *)
Fixpoint acquire (cfg : RateLimitConfig.t) (ctx : Context) (n : nat)
         (s : Store X) : outcome X (option error) :=
  match n with
  | O => Ret None s
  | S n' =>
      match selectWait ctx s with
      | (CaseDone, s') => Ret (Some (cause ctx)) s'
      | (CaseToken, s') => acquire cfg ctx n' s'
      | (CaseDefault, s') =>
          if RateLimitConfig.Rate cfg =? 0 then
            Panic "runtime error: integer divide by zero"
          else
            Ret (Some (NewRateLimitError "rate limit exceeded"
                         (div64 (RateLimitConfig.Period cfg)
                                (RateLimitConfig.Rate cfg)))) s'
      end
  end.

(** [RateLimiter.Wait]. *)
Definition Wait (cfg : RateLimitConfig.t) (ctx : Context) (email : Email.t)
           (s : Store X) : outcome X (option error) :=
  if negb (RateLimitConfig.Enabled cfg) then Ret None s
  else
    let tokensNeeded :=
      if RateLimitConfig.PerRecipient cfg then TotalRecipients email else 1 in
    acquire cfg ctx (Z.to_nat tokensNeeded) s.

(** ** CircuitBreaker *)

(** [NewCircuitBreaker]: closed, counters at zero, zero [lastFailTime]. *)
Definition NewCircuitBreaker : Breaker.t :=
  Breaker.mk CircuitBreakerClosed 0 0 zeroTime.

(** [CircuitBreaker.canExecute].  The source tests the open timeout under
    the read lock and again under the write lock; without a concurrent
    writer in between, both tests read the same fields. *)
Definition canExecute (cfg : CircuitBreakerConfig.t) (s : Store X)
  : bool * Store X :=
  let b := breaker s in
  match Breaker.state b with
  | CircuitBreakerClosed => (true, s)
  | CircuitBreakerOpen =>
      if Since s (Breaker.lastFailTime b) >=? CircuitBreakerConfig.Timeout cfg
      then
        let b' :=
          if CircuitBreakerState_eqb (Breaker.state b) CircuitBreakerOpen
             && (Since s (Breaker.lastFailTime b)
                 >=? CircuitBreakerConfig.Timeout cfg)
          then Breaker.mk CircuitBreakerHalfOpen (Breaker.failureCount b) 0
                          (Breaker.lastFailTime b)
          else b in
        (CircuitBreakerState_eqb (Breaker.state b') CircuitBreakerHalfOpen,
         set_breaker s b')
      else (false, s)
  | CircuitBreakerHalfOpen => (true, s)
  end.

(** [CircuitBreaker.recordResult]. *)
Definition recordResult (cfg : CircuitBreakerConfig.t) (err : option error)
           (s : Store X) : Store X :=
  let b := breaker s in
  match err with
  | Some _ =>
      let fc := incr (Breaker.failureCount b) in
      let st :=
        if CircuitBreakerState_eqb (Breaker.state b) CircuitBreakerClosed
           && (fc >=? CircuitBreakerConfig.FailureThreshold cfg)
        then CircuitBreakerOpen
        else if CircuitBreakerState_eqb (Breaker.state b) CircuitBreakerHalfOpen
        then CircuitBreakerOpen
        else Breaker.state b in
      set_breaker s (Breaker.mk st fc (Breaker.successCount b) (Now s))
  | None =>
      let sc := incr (Breaker.successCount b) in
      let b1 :=
        if CircuitBreakerState_eqb (Breaker.state b) CircuitBreakerHalfOpen
           && (sc >=? CircuitBreakerConfig.SuccessThreshold cfg)
        then Breaker.mk CircuitBreakerClosed 0 sc (Breaker.lastFailTime b)
        else Breaker.mk (Breaker.state b) (Breaker.failureCount b) sc
                        (Breaker.lastFailTime b) in
      let b2 :=
        if CircuitBreakerState_eqb (Breaker.state b1) CircuitBreakerClosed
           && (Since s (Breaker.lastFailTime b1)
               >=? CircuitBreakerConfig.ResetTimeout cfg)
        then Breaker.mk (Breaker.state b1) 0 (Breaker.successCount b1)
                        (Breaker.lastFailTime b1)
        else b1 in
      set_breaker s b2
  end.

(** [CircuitBreaker.Execute]. *)
Definition Execute (cfg : CircuitBreakerConfig.t) (fn : Work) : Work :=
  fun s =>
    if negb (CircuitBreakerConfig.Enabled cfg) then fn s
    else
      let (ok, s1) := canExecute cfg s in
      if negb ok then (Some ErrCircuitBreakerOpen, s1)
      else
        let (err, s2) := fn s1 in
        (err, recordResult cfg err s2).

End Resilience.

(** ** Client *)

Module Provider.
(** The [core.Provider] interface as the client uses it.  A provider lives
    in another package: it acts on the outside world and cannot reach the
    client's unexported fields. *)
Record t {X : Type} : Type := mk {
  Name : string;
  Send : Context -> Email.t -> Env X
         -> (option SendResult.t * option error) * Env X;
  SendBatch : Context -> list Email.t -> Env X
              -> (option BatchResult.t * option error) * Env X
}.
Arguments t : clear implicits.
Arguments mk {X} Name Send SendBatch.
End Provider.

Module TemplateEngine.
(** Of the template engine only the optional [Close() error] method that
    [Client.Close] looks for matters here: [Closer] is [None] when the
    dynamic type has no such method. *)
Record t {X : Type} : Type := mk {
  Closer : option (Env X -> option error * Env X)
}.
Arguments t : clear implicits.
Arguments mk {X} Closer.
End TemplateEngine.

Module Client.
(** The fields of [Client] fixed by [New]; a [nil] pointer or interface is
    [None].  The mutable parts are in the [Store]. *)
Record t {lib : GoLib} {X : Type} : Type := mk {
  provider : Provider.t X;
  fallback : option (Provider.t X);
  templateEng : option (TemplateEngine.t X);
  retryManager : option RetryConfig.t;
  rateLimiter : option RateLimitConfig.t;
  circuitBreaker : option CircuitBreakerConfig.t
}.
Arguments t {lib} X.
Arguments mk {lib X} provider fallback templateEng retryManager rateLimiter
          circuitBreaker.
End Client.

Section ClientOps.
Context {lib : GoLib} {X : Type}.

Definition len {A : Type} (l : list A) : Z := Z.of_nat (List.length l).

(** [Client.sendWithProvider]. *)
Definition sendWithProvider (c : Client.t X) (ctx : Context)
           (email : Email.t) (p : Provider.t X) (s : Store X)
  : (option SendResult.t * option error) * Store X :=
  let (r, e') := Provider.Send p ctx email (env s) in (r, set_env s e').

(** [Client.sendBatchWithProvider]. *)
Definition sendBatchWithProvider (c : Client.t X) (ctx : Context)
           (emails : list Email.t) (p : Provider.t X) (s : Store X)
  : (option BatchResult.t * option error) * Store X :=
  let (r, e') := Provider.SendBatch p ctx emails (env s) in (r, set_env s e').

(** The closure [sendFn] of [Send].  Its captured [result] only feeds span
    attributes. *)
Definition sendFn (c : Client.t X) (ctx : Context) (email : Email.t)
  : Work :=
  fun s =>
    let '((_, sendErr), s1) :=
      sendWithProvider c ctx email (Client.provider c) s in
    match sendErr, Client.fallback c with
    | Some _, Some fb =>
        if IsRetryable sendErr then
          let '((_, sendErr'), s2) := sendWithProvider c ctx email fb s1 in
          (sendErr', s2)
        else (sendErr, s1)
    | _, _ => (sendErr, s1)
    end.

(** The step "apply circuit breaker if enabled" of [Send]. *)
Definition guarded (c : Client.t X) (ctx : Context) (email : Email.t)
  : Work :=
  match Client.circuitBreaker c with
  | Some cb => Execute cb (sendFn c ctx email)
  | None => sendFn c ctx email
  end.

(** The part of [Send] from the circuit breaker on: the guarded call, then
    "apply retry logic if enabled". *)
Definition dispatch (c : Client.t X) (ctx : Context) (email : Email.t)
           (s : Store X) : outcome X (option error) :=
  let (err, s1) := guarded c ctx email s in
  match err, Client.retryManager c with
  | Some _, Some rm =>
      if IsRetryable err then
        let (err', s2) := Retry rm ctx (sendFn c ctx email) s1 in Ret err' s2
      else Ret err s1
  | _, _ => Ret err s1
  end.

(** [Client.Send].  The span attribute [email.To[0].Email] is read before
    validation. *)
Definition Send (c : Client.t X) (ctx : Context) (email : Email.t)
           (s : Store X) : outcome X (option error) :=
  if closed s then Ret (Some ErrClientClosed) s
  else
    match Email.To email with
    | [] => Panic "runtime error: index out of range [0] with length 0"
    | _ :: _ =>
        match Validate email with
        | Some verr => Ret (Some verr) s
        | None =>
            match Client.rateLimiter c with
            | Some rl =>
                match Wait rl ctx email s with
                | Panic r => Panic r
                | Ret (Some e) s1 => Ret (Some e) s1
                | Ret None s1 => dispatch c ctx email s1
                end
            | None => dispatch c ctx email s
            end
        end
    end.

(** The validation loop of [SendBatch]. *)
Fixpoint validateAll (i : Z) (emails : list Email.t) : option error :=
  match emails with
  | [] => None
  | email :: rest =>
      match Validate email with
      | Some err => Some (EWrap ("email at index " ++ Itoa i ++ ": ") err)
      | None => validateAll (i + 1) rest
      end
  end.

(** The loop of [sendBatchIndividually] from index [i] on. *)
Fixpoint sendEach (c : Client.t X) (ctx : Context) (i : Z)
         (emails : list Email.t) (successCount failureCount : Z)
         (batchErrors : list (Z * option error)) (s : Store X)
  : outcome X (Z * Z * list (Z * option error)) :=
  match emails with
  | [] => Ret (successCount, failureCount, batchErrors) s
  | email :: rest =>
      match Email.To email with
      | [] => Panic "runtime error: index out of range [0] with length 0"
      | _ :: _ =>
          match Send c ctx email s with
          | Panic r => Panic r
          | Ret (Some err) s' =>
              sendEach c ctx (i + 1) rest successCount (incr failureCount)
                       (batchErrors ++ [(i, Some err)])%list s'
          | Ret None s' =>
              sendEach c ctx (i + 1) rest (incr successCount) failureCount
                       batchErrors s'
          end
      end
  end.

(** [Client.sendBatchIndividually]. *)
Definition sendBatchIndividually (c : Client.t X) (ctx : Context)
           (emails : list Email.t) (s : Store X)
  : outcome X (option error) :=
  match sendEach c ctx 0 emails 0 0 [] s with
  | Panic r => Panic r
  | Ret (_, failureCount, batchErrors) s' =>
      if failureCount >? 0 then
        Ret (Some (EBatch
                     (Itoa failureCount ++ "/" ++ Itoa (len emails)
                      ++ " emails failed in fallback individual send")
                     batchErrors (len emails) failureCount)) s'
      else Ret None s'
  end.

(** [Client.SendBatch]. *)
Definition SendBatch (c : Client.t X) (ctx : Context)
           (emails : list Email.t) (s : Store X)
  : outcome X (option error) :=
  if closed s then Ret (Some ErrClientClosed) s
  else if len emails =? 0 then Ret None s
  else
    match validateAll 0 emails with
    | Some validationErr => Ret (Some validationErr) s
    | None =>
        let '((batchResult, err), s1) :=
          sendBatchWithProvider c ctx emails (Client.provider c) s in
        match err, Client.fallback c with
        | Some _, Some _ => sendBatchIndividually c ctx emails s1
        | Some _, None => Ret err s1
        | None, _ =>
            match batchResult with
            | None =>
                Panic "runtime error: invalid memory address or nil pointer dereference"
            | Some br =>
                let failureCount := len (BatchResult.Failed br) in
                if failureCount >? 0 then
                  Ret (Some (EBatch
                               (Itoa failureCount ++ "/" ++ Itoa (len emails)
                                ++ " emails failed")
                               (map (fun f => (BatchFailure.Index f,
                                               BatchFailure.Error f))
                                    (BatchResult.Failed br))
                               (len emails) failureCount)) s1
                else Ret None s1
            end
        end
    end.

(** [Client.Close]. *)
Definition Close (c : Client.t X) (s : Store X) : option error * Store X :=
  if closed s then (None, s)
  else
    let s1 := set_closed s true in
    match Client.templateEng c with
    | Some te =>
        match TemplateEngine.Closer te with
        | Some close =>
            let (err, e') := close (env s1) in
            match err with
            | Some e =>
                (Some (EWrap "failed to close template engine: " e),
                 set_env s1 e')
            | None => (None, set_env s1 e')
            end
        | None => (None, s1)
        end
    | None => (None, s1)
    end.

End ClientOps.

(** ** Vocabulary of the statements *)

Definition isRateLimitError (e : error) : bool :=
  match e with ERateLimit _ _ _ _ => true | _ => false end.

Section Vocabulary.
Context {lib : GoLib} {X : Type}.
Implicit Types (c : Client.t X) (ctx : Context) (email : Email.t)
         (emails : list Email.t) (s : Store X).

(** The client with its retry manager removed. *)
Definition withoutRetry c : Client.t X :=
  Client.mk (Client.provider c) (Client.fallback c) (Client.templateEng c)
            None (Client.rateLimiter c) (Client.circuitBreaker c).

(** The client's own mutable fields. *)
Definition own s : bool * Breaker.t * nat := (closed s, breaker s, tokens s).

(** Consecutive recorded failures: each is recorded in the store as the
    world stands at that moment, the breaker's fields carried over. *)
Fixpoint recordFailures (cfg : CircuitBreakerConfig.t)
         (obs : list (error * Env X)) s : Store X :=
  match obs with
  | [] => s
  | (e, en) :: rest =>
      recordFailures cfg rest (recordResult cfg (Some e) (set_env s en))
  end.

(** The weight of an acquire: [tokensNeeded] in [Wait]. *)
Definition weightOf (cfg : RateLimitConfig.t) email : Z :=
  if RateLimitConfig.PerRecipient cfg then TotalRecipients email else 1.

(** The rate-limited failure [Wait] builds. *)
Definition rateLimited (cfg : RateLimitConfig.t) : error :=
  NewRateLimitError "rate limit exceeded"
    (div64 (RateLimitConfig.Period cfg) (RateLimitConfig.Rate cfg)).

(** The statement "a failed weighted acquire consumes no token", at one
    input. *)
Definition failed_acquire_keeps_tokens_at (cfg : RateLimitConfig.t)
           ctx email s : Prop :=
  RateLimitConfig.Enabled cfg = true ->
  weightOf cfg email > Z.of_nat (tokens s) ->
  exists e s',
    Wait cfg ctx email s = Ret (Some e) s'
    /\ isRateLimitError e = true
    /\ tokens s' = tokens s.

(** The statement "a batch of three whose message 1 is invalid degrades to
    a batch outcome with total 3 and the validation failure under index
    1", at one input. *)
Definition invalid_item_reported_in_batch_at c ctx emails s : Prop :=
  exists email v msg s',
    nth_error emails 1 = Some email
    /\ Validate email = Some v
    /\ SendBatch c ctx emails s
       = Ret (Some (EBatch msg [(1, Some v)] 3 1)) s'.

(** [dispatch] as it would be with the breaker inside the retry loop: the
    retry manager is handed the guarded unit of work, so that every retry
    attempt goes through [Execute]. *)
Definition dispatchGuardedRetry c ctx email s : outcome X (option error) :=
  let (err, s1) := guarded c ctx email s in
  match err, Client.retryManager c with
  | Some _, Some rm =>
      if IsRetryable err then
        let (err', s2) := Retry rm ctx (guarded c ctx email) s1 in Ret err' s2
      else Ret err s1
  | _, _ => Ret err s1
  end.

(** [Send] with that composition. *)
Definition SendGuardedRetry c ctx email s : outcome X (option error) :=
  if closed s then Ret (Some ErrClientClosed) s
  else
    match Email.To email with
    | [] => Panic "runtime error: index out of range [0] with length 0"
    | _ :: _ =>
        match Validate email with
        | Some verr => Ret (Some verr) s
        | None =>
            match Client.rateLimiter c with
            | Some rl =>
                match Wait rl ctx email s with
                | Panic r => Panic r
                | Ret (Some e) s1 => Ret (Some e) s1
                | Ret None s1 => dispatchGuardedRetry c ctx email s1
                end
            | None => dispatchGuardedRetry c ctx email s
            end
        end
    end.

(** The statement "every retry attempt goes through the breaker", at one
    input: the call ends as it would with the breaker inside the retry
    loop. *)
Definition retries_pass_breaker_at c ctx email s : Prop :=
  Send c ctx email s = SendGuardedRetry c ctx email s.

(** The store [s0] with which a [Send] started in [s] gets past the rate
    limiter. *)
Definition admitted c ctx email s s0 : Prop :=
  match Client.rateLimiter c with
  | Some rl => Wait rl ctx email s = Ret None s0
  | None => s0 = s
  end.

End Vocabulary.

(** ** Fixtures

    A concrete instance of the library pieces, on ASCII text and whole-number
    multipliers, and scripted providers that log their calls, for running the
    definitions on examples. *)

Module Fixtures.

Definition isSpace (a : Ascii.ascii) : bool :=
  let n := Ascii.nat_of_ascii a in
  (Nat.eqb n 32 || (Nat.leb 9 n && Nat.leb n 13))%bool.

Fixpoint trimLeft (s : string) : string :=
  match s with
  | String a rest => if isSpace a then trimLeft rest else s
  | EmptyString => EmptyString
  end.

Fixpoint revString (s acc : string) : string :=
  match s with
  | String a rest => revString rest (String a acc)
  | EmptyString => acc
  end.

Definition trim (s : string) : string :=
  revString (trimLeft (revString (trimLeft s) "")) "".

Fixpoint hasAt (s : string) : bool :=
  match s with
  | String a rest => (Ascii.eqb a "@"%char || hasAt rest)%bool
  | EmptyString => false
  end.

#[local] Instance asciiLib : GoLib := {|
  float64 := Z;
  backoffProduct := fun d m k => d * m ^ k;
  tenthOf := fun d => Z.quot d 10;
  QEncode := fun s => s;
  ParseAddressOk := hasAt;
  TrimSpace := trim
|}.

(** Provider internals: the log of calls received, latest first. *)
Definition Log : Type := list string.

Definition note (what : string) (e : Env Log) : Env Log :=
  mkEnv (clock e) (entropy e) (what :: ext e).

Definition firstTo (email : Email.t) : string :=
  match Email.To email with
  | a :: _ => Address.Email a
  | [] => ""
  end.

(** A provider whose every call fails with [err]. *)
Definition failing (name : string) (err : error) : Provider.t Log :=
  Provider.mk name
    (fun _ _ e => ((None, Some err), note (name ++ ".Send") e))
    (fun _ _ e => ((None, Some err), note (name ++ ".SendBatch") e)).

(** A provider that accepts every message except those whose first
    recipient is [reject], which fail with [err]; its batch call fails
    outright when [batchErr] is set. *)
Definition choosy (name reject : string) (err : error)
           (batchErr : option error) : Provider.t Log :=
  Provider.mk name
    (fun _ email e =>
       if String.eqb (firstTo email) reject
       then ((None, Some err), note (name ++ ".Send") e)
       else ((Some (SendResult.mk "id" name (clock e)), None),
             note (name ++ ".Send") e))
    (fun _ emails e =>
       match batchErr with
       | Some b => ((None, Some b), note (name ++ ".SendBatch") e)
       | None =>
           ((Some (BatchResult.mk (Z.of_nat (List.length emails)) [] [] name),
             None), note (name ++ ".SendBatch") e)
       end).

Definition retryableErr : error :=
  EProvider "primary" "503" "unavailable" 503 true true None.
Definition fatalErr : error :=
  EProvider "primary" "550" "mailbox unknown" 550 false false None.

Definition addr (a : string) : Address.t := Address.mk "" a.

Definition mail (to : list string) (subject : string) : Email.t :=
  Email.mk (addr "noreply@example.com") (map addr to) [] [] subject ""
           "hello" [] [].

Definition background : Context := mkContext None context_Canceled.

Definition store0 (t : Z) (tok : nat) : Store Log :=
  mkStore (mkEnv t [] []) false NewCircuitBreaker tok.

Definition retry3 : RetryConfig.t :=
  RetryConfig.mk true 3 100000000 5000000000 (2 : Z) false.

Definition breaker1 : CircuitBreakerConfig.t :=
  CircuitBreakerConfig.mk true 1 1 60000000000 300000000000.

Definition breaker3 : CircuitBreakerConfig.t :=
  CircuitBreakerConfig.mk true 3 2 60000000000 300000000000.

Definition perRecipient : RateLimitConfig.t :=
  RateLimitConfig.mk true 100 60000000000 10 true.

(** A template engine whose [Close] logs the call. *)
Definition engine : TemplateEngine.t Log :=
  TemplateEngine.mk (Some (fun e => (None, note "templates.Close" e))).

(** Primary always failing retryably, no fallback; retries and a breaker
    that opens at the first failure. *)
Definition flaky : Client.t Log :=
  Client.mk (failing "primary" retryableErr) None (Some engine)
            (Some retry3) None (Some breaker1).

(** Primary always failing for good; retries, no breaker. *)
Definition broken : Client.t Log :=
  Client.mk (failing "primary" fatalErr) None None (Some retry3) None None.

(** Primary whose batch call fails outright and whose single sends reject
    one recipient, with a fallback. *)
Definition degraded : Client.t Log :=
  Client.mk (choosy "primary" "b@example.com" fatalErr (Some retryableErr))
            (Some (choosy "fallback" "b@example.com" fatalErr None))
            None None None None.

Definition toA : Email.t := mail ["a@example.com"] "hi".
Definition toB : Email.t := mail ["b@example.com"] "hi".
Definition toC : Email.t := mail ["c@example.com"] "hi".
Definition noSubject : Email.t := mail ["b@example.com"] "".
Definition noRecipient : Email.t := mail [] "hi".
Definition toABC : Email.t :=
  mail ["a@example.com"; "b@example.com"; "c@example.com"] "hi".

(** Three failures seen at instants 10, 20 and 30. *)
Definition threeFailures : list (error * Env Log) :=
  [(retryableErr, mkEnv 10 [] []); (retryableErr, mkEnv 20 [] []);
   (retryableErr, mkEnv 30 [] [])].

(** A store whose breaker stands open since instant 0. *)
Definition openStore (t : Z) : Store Log :=
  mkStore (mkEnv t [] []) false (Breaker.mk CircuitBreakerOpen 1 0 0) 0.

End Fixtures.

(** ** Further parts of the sources *)

From Stdlib Require Import Sorted.
From Stdlib Require SpecFloat QArith Qminmax.

(** *** [float64] as IEEE 754 binary64

    The float arithmetic of [calculateDelay] with its meaning: the
    conversions, the product and [math.Pow], on the values of the Standard
    Library's [SpecFloat]. *)

Module Float64.
Import SpecFloat.

(** [float64] is the binary64 format: 53 bits of mantissa, exponents below
    1024. *)
Definition prec : Z := 53.
Definition emax : Z := 1024.

Definition t : Type := spec_float.

(** The constants [0], [-0], [1], [0.5], [0.1] (the nearest value) and
    [1 << 53]. *)
Definition zero : t := S754_zero false.
Definition negzero : t := S754_zero true.
Definition one : t := S754_finite false 4503599627370496 (-52).
Definition half : t := S754_finite false 4503599627370496 (-53).
Definition tenth : t := S754_finite false 7205759403792794 (-56).
Definition two53 : t := S754_finite false 4503599627370496 1.
Definition inf (negative : bool) : t := S754_infinity negative.
Definition nan : t := S754_nan.

(** [float64(i)] for an integer [i]: the nearest value, ties to even. *)
Definition ofInt (i : Z) : t := binary_normalize prec emax i 0 false.

(** The operators [*], [+], [/], unary [-], [math.Abs], [==], [<] and [<=];
    a comparison with a NaN is false. *)
Definition mul (x y : t) : t := SFmul prec emax x y.
Definition add (x y : t) : t := SFadd prec emax x y.
Definition div (x y : t) : t := SFdiv prec emax x y.
Definition opp (x : t) : t := SFopp x.
Definition abs (x : t) : t := SFabs x.
Definition eqb (x y : t) : bool := SFeqb x y.
Definition ltb (x y : t) : bool := SFltb x y.
Definition leb (x y : t) : bool := SFleb x y.

(** [math.IsNaN], [math.IsInf(x, 0)] and [math.Signbit]. *)
Definition isNaN (x : t) : bool :=
  match x with S754_nan => true | _ => false end.
Definition isInf (x : t) : bool :=
  match x with S754_infinity _ => true | _ => false end.
Definition signbit (x : t) : bool :=
  match x with
  | S754_zero s | S754_infinity s | S754_finite s _ _ => s
  | S754_nan => false
  end.

(** The whole part of a finite value, toward zero. *)
Definition trunc (x : t) : option Z :=
  match x with
  | S754_zero _ => Some 0
  | S754_finite s m e =>
      Some (cond_Zopp s (if 0 <=? e then Zpos m * 2 ^ e
                         else Z.quot (Zpos m) (2 ^ (- e))))
  | _ => None
  end.

(** Whether a value is finite without fractional part. *)
Definition isInteger (x : t) : bool :=
  match x with
  | S754_zero _ => true
  | S754_finite _ m e => (0 <=? e) || (Z.rem (Zpos m) (2 ^ (- e)) =? 0)
  | _ => false
  end.

(** [int64(x)]: the whole part when it fits.  For a NaN, an infinity or a
    value beyond [int64] the language leaves the result to the
    implementation: [outOfRange] stands for it. *)
Definition toInt (outOfRange : t -> Z) (x : t) : Z :=
  match trunc x with
  | Some z => if (MinInt64 <=? z) && (z <=? MaxInt64) then z else outOfRange x
  | None => outOfRange x
  end.

(** The value of a finite float, as a fraction. *)
Definition toQ (x : t) : option QArith_base.Q :=
  match x with
  | S754_zero _ => Some (QArith_base.inject_Z 0)
  | S754_finite s m e =>
      Some (QArith_base.Qmult (QArith_base.inject_Z (cond_Zopp s (Zpos m)))
                              (QArith_base.Qpower (QArith_base.inject_Z 2) e))
  | _ => None
  end.

(** [math.Pow] of the Go distribution (package [math], file [pow.go]), for
    an exponent [float64(k)] that comes from an integer [k], as in
    [calculateDelay]: such an exponent has no fractional part, so the
    branches of [Pow] through [Exp], [Log] and [Sqrt] are not reached. *)

(** [isOddInt]. *)
Definition isOddInt (y : t) : bool :=
  if leb two53 (abs y) then false
  else
    match trunc y with
    | Some z => isInteger y && Z.odd z
    | None => false
    end.

(** The case [x == 0] of [Pow], for [y] other than zero. *)
Definition powOfZero (x y : t) : t :=
  if ltb y zero then
    (if signbit x && isOddInt y then inf (signbit x) else inf false)
  else
    (if signbit x && isOddInt y then x else zero).

(** The loop [for i := int64(yi); i != 0; i >>= 1] of [Pow], on the
    [Frexp] parts [x1], [xe] of [x]: the answer so far is [a1 * 2**ae]. *)
Fixpoint powLoop (i : positive) (a1 : t) (ae : Z) (x1 : t) (xe : Z) : t * Z :=
  if (xe <? - 4096) || (4096 <? xe) then (a1, ae + xe)
  else
    let '(a1, ae) :=
      match i with
      | xO _ => (a1, ae)
      | _ => (mul a1 x1, ae + xe)
      end in
    let x1 := mul x1 x1 in
    let xe := 2 * xe in
    let '(x1, xe) := if ltb x1 half then (add x1 x1, xe - 1) else (x1, xe) in
    match i with
    | xH => (a1, ae)
    | xO p | xI p => powLoop p a1 ae x1 xe
    end.

(** [math.Pow(x, float64(k))]: the special cases in the order of the
    source, then the large exponents, then the loop and [Ldexp]. *)
Definition Pow (x : t) (k : Z) : t :=
  let y := ofInt k in
  if eqb y zero || eqb x one then one
  else if eqb y one then x
  else if isNaN x then nan
  else if eqb x zero then powOfZero x y
  else if isInf x then
    if signbit x then
      (if eqb (opp y) one then negzero else powOfZero negzero (opp y))
    else if ltb y zero then zero
    else inf false
  else
    match trunc (abs y) with
    | Some (Zpos yi) =>
        if 2 ^ 63 <=? Zpos yi then
          if eqb x (opp one) then one
          else if Bool.eqb (ltb (abs x) one) (ltb zero y) then zero
          else inf false
        else
          let '(x1, xe) := SFfrexp prec emax x in
          let '(a1, ae) := powLoop yi one 0 x1 xe in
          let '(a1, ae) :=
            if ltb y zero then (div one a1, - ae) else (a1, ae) in
          SFldexp prec emax a1 ae
    | _ => one
    end.

End Float64.

(** The library pieces with [float64] read as binary64; the text functions
    are those of [text]. *)
Definition binary64 (outOfRange : Float64.t -> Z) (text : GoLib) : GoLib := {|
  float64 := Float64.t;
  backoffProduct := fun d m k =>
    Float64.toInt outOfRange (Float64.mul (Float64.ofInt d) (Float64.Pow m k));
  tenthOf := fun d =>
    Float64.toInt outOfRange (Float64.mul (Float64.ofInt d) Float64.tenth);
  QEncode := @QEncode text;
  ParseAddressOk := @ParseAddressOk text;
  TrimSpace := @TrimSpace text
|}.

Section DelayVocabulary.
Context {X : Type}.
Variable outOfRange : Float64.t -> Z.
Variable text : GoLib.

(** The value of [min(initialDelay * multiplier^(attempt-1), maxDelay)], as
    a fraction; there is none when the multiplier is not finite. *)
Definition formulaDelay (cfg : @RetryConfig.t (binary64 outOfRange text))
           (attempt : Z) : option QArith_base.Q :=
  match Float64.toQ (RetryConfig.Multiplier cfg) with
  | Some m =>
      Some (Qminmax.Qmin
              (QArith_base.Qmult
                 (QArith_base.inject_Z (RetryConfig.InitialDelay cfg))
                 (QArith_base.Qpower m (attempt - 1)))
              (QArith_base.inject_Z (RetryConfig.MaxDelay cfg)))
  | None => None
  end.

(** The statement "with jitter disabled, the delay computed for an attempt
    in [[1, MaxAttempts]] equals
    [min(initialDelay * multiplier^(attempt-1), maxDelay)] exactly", at one
    input. *)
Definition delay_exact_at (cfg : @RetryConfig.t (binary64 outOfRange text))
           (attempt : Z) (s : Store X) : Prop :=
  RetryConfig.Jitter cfg = false ->
  1 <= attempt <= RetryConfig.MaxAttempts cfg ->
  exists q,
    formulaDelay cfg attempt = Some q
    /\ QArith_base.Qeq
         (QArith_base.inject_Z
            (fst (@calculateDelay (binary64 outOfRange text) X cfg attempt s)))
         q.

End DelayVocabulary.


(** *** internal/core/types.go: classification and constructors *)

(** The type assertion [err.(TemporaryError)]. *)
Definition asTemporary (e : error) : option bool :=
  match e with
  | EProvider _ _ _ _ _ t _ => Some t
  | EForeign _ t _ _ => t
  | _ => None
  end.

(** [IsTemporary]. *)
Definition IsTemporary (err : option error) : bool :=
  match err with
  | None => false
  | Some e =>
      match asTemporary e with
      | Some b => b
      | None =>
          match asProviderError e with
          | Some (_, t) => t
          | None => false
          end
      end
  end.

(** [NewProviderError], [NewRetryableProviderError],
    [NewTemporaryProviderError]: [StatusCode] and [Cause] keep their zero
    values. *)
Definition NewProviderError (provider code message : string) : error :=
  EProvider provider code message 0 false false None.
Definition NewRetryableProviderError (provider code message : string) : error :=
  EProvider provider code message 0 true false None.
Definition NewTemporaryProviderError (provider code message : string) : error :=
  EProvider provider code message 0 true true None.

(** [NewValidationError]. *)
Definition NewValidationError (field message : string) : error :=
  EValidation field message.

(** [NewTemplateError]. *)
Definition NewTemplateError (template operation message : string)
           (cause : option error) : error :=
  ETemplate template operation message cause.

(** [fmt.Errorf] with one [%w] at the end of the format, applied once per
    prefix, the first prefix outermost. *)
Definition wrapped (prefixes : list string) (e : error) : error :=
  fold_right EWrap e prefixes.

(** [errors.Is(err, target)] for a [target] made by [errors.New]: some error
    on the [Unwrap] chain is that very value.  The [Is] methods of
    [*ValidationError] and [*ProviderError] answer [false] for such a
    target. *)
Fixpoint errorsIsSentinel (msg : string) (e : error) : bool :=
  match e with
  | Sentinel m => String.eqb m msg
  | EWrap _ inner => errorsIsSentinel msg inner
  | EProvider _ _ _ _ _ _ (Some c) => errorsIsSentinel msg c
  | ETemplate _ _ _ (Some c) => errorsIsSentinel msg c
  | EForeign _ _ _ (Some c) => errorsIsSentinel msg c
  | _ => false
  end.

Definition ErrTemplateNotFound : error := Sentinel "template not found".

Section MoreCore.
Context {lib : GoLib}.

(** [Email.AllRecipients]. *)
Definition AllRecipients (e : Email.t) : list Address.t :=
  (Email.To e ++ Email.CC e ++ Email.BCC e)%list.

(** What [Validate] asks of an e-mail. *)
Definition wellFormed (e : Email.t) : Prop :=
  Valid (Email.From e) = true
  /\ Email.To e <> []
  /\ forallb Valid (Email.To e) = true
  /\ forallb Valid (Email.CC e) = true
  /\ forallb Valid (Email.BCC e) = true
  /\ blank (Email.Subject e) = false
  /\ (blank (Email.TextBody e) = false \/ blank (Email.HTMLBody e) = false).

End MoreCore.

(** *** The circuit breaker: accessors and drivers *)

(** [CircuitBreakerState.String]. *)
Definition CircuitBreakerState_String (st : CircuitBreakerState) : string :=
  match st with
  | CircuitBreakerClosed => "closed"
  | CircuitBreakerOpen => "open"
  | CircuitBreakerHalfOpen => "half-open"
  end.

Section Drivers.
Context {lib : GoLib} {X : Type}.
Implicit Types (s : Store X) (ctx : Context) (email : Email.t).

(** [CircuitBreaker.State], [FailureCount], [SuccessCount]. *)
Definition State s : CircuitBreakerState := Breaker.state (breaker s).
Definition FailureCount s : Z := Breaker.failureCount (breaker s).
Definition SuccessCount s : Z := Breaker.successCount (breaker s).

(** A sequence of recorded results, failures and successes, each recorded in
    the store as the world stands at that moment. *)
Fixpoint recordAll (cfg : CircuitBreakerConfig.t)
         (obs : list (option error * Env X)) s : Store X :=
  match obs with
  | [] => s
  | (r, en) :: rest => recordAll cfg rest (recordResult cfg r (set_env s en))
  end.

(** The number of failures among recorded results. *)
Fixpoint failuresIn (obs : list (option error * Env X)) : Z :=
  match obs with
  | [] => 0
  | (Some _, _) :: rest => 1 + failuresIn rest
  | (None, _) :: rest => failuresIn rest
  end.

(** Successive [Execute] calls, one per unit of work: the errors returned and
    the final store. *)
Fixpoint executeAll (cfg : CircuitBreakerConfig.t) (fns : list (@Work X)) s
  : list (option error) * Store X :=
  match fns with
  | [] => ([], s)
  | fn :: rest =>
      let (err, s1) := Execute cfg fn s in
      let (errs, s2) := executeAll cfg rest s1 in
      (err :: errs, s2)
  end.

(** *** The rate limiter: drivers *)

(** [n] successive [Wait] calls for the same e-mail: their results, up to a
    panic. *)
Fixpoint waits (cfg : RateLimitConfig.t) ctx email (n : nat) s
  : outcome X (list (option error)) :=
  match n with
  | O => Ret [] s
  | S n' =>
      match Wait cfg ctx email s with
      | Panic r => Panic r
      | Ret r s1 =>
          match waits cfg ctx email n' s1 with
          | Panic r' => Panic r'
          | Ret rs s2 => Ret (r :: rs) s2
          end
      end
  end.

(** What happens to a limiter: a tick of the refill ticker or a [Wait]. *)
Inductive limiterOp : Type :=
| Tick
| Acquire (ctx : Context) (email : Email.t).

(** A history of the limiter, up to a panic.  There is a tick only if the
    ticker exists. *)
Fixpoint runLimiter (cfg : RateLimitConfig.t) (ops : list limiterOp) s
  : outcome X unit :=
  match ops with
  | [] => Ret tt s
  | Tick :: rest =>
      match newTicker cfg with
      | Some r => Panic r
      | None => runLimiter cfg rest (refillTick cfg s)
      end
  | Acquire ctx email :: rest =>
      match Wait cfg ctx email s with
      | Panic r => Panic r
      | Ret _ s1 => runLimiter cfg rest s1
      end
  end.

(** The delay [Retry] waits after a failure [err] of attempt [attempt]: the
    computed backoff unless the failure carries a positive retry-after. *)
Definition effectiveDelay (cfg : RetryConfig.t) (attempt : Z)
           (err : option error) s : Z * Store X :=
  let (delay, s2) := calculateDelay cfg attempt s in
  ((if GetRetryAfter err >? 0 then GetRetryAfter err else delay), s2).

End Drivers.

(** *** The providers' batch loop *)

Module Builtin.
(** A provider of [internal/providers].  [readsFirstTo] says whether its
    [Send] starts by reading [email.To[0]] without testing the length, as
    Mailgun's does; [send] is the rest of [Send], which returns either a
    result or an error, never both [nil]. *)
Record t {X : Type} : Type := mk {
  name : string;
  readsFirstTo : bool;
  send : Context -> Email.t -> Env X -> (SendResult.t + error) * Env X
}.
Arguments t : clear implicits.
Arguments mk {X} name readsFirstTo send.

(** What a call of a provider comes to: it returns, or it panics. *)
Inductive reply (A : Type) : Type :=
| Returns (a : A)
| Panics (reason : string).
Arguments Returns {A} a.
Arguments Panics {A} reason.
End Builtin.

Section BuiltinProviders.
Context {X : Type}.

(** [Provider.Send] of those providers: the unchecked read of
    [email.To[0]], where there is one, panics on an e-mail without
    recipient. *)
Definition Builtin_Send (p : Builtin.t X) (ctx : Context) (email : Email.t)
           (en : Env X)
  : Builtin.reply ((SendResult.t + error) * Env X) :=
  match Builtin.readsFirstTo p, Email.To email with
  | true, [] =>
      Builtin.Panics "runtime error: index out of range [0] with length 0"
  | _, _ => Builtin.Returns (Builtin.send p ctx email en)
  end.

(** The loop of [Provider.SendBatch] in the SES, SMTP, SendGrid and Mailgun
    providers, from index [i] on. *)
Fixpoint batchLoop (p : Builtin.t X) (ctx : Context) (i : Z)
         (emails : list Email.t) (successful : list SendResult.t)
         (failed : list BatchFailure.t) (en : Env X)
  : Builtin.reply ((list SendResult.t * list BatchFailure.t) * Env X) :=
  match emails with
  | [] => Builtin.Returns ((successful, failed), en)
  | email :: rest =>
      match Builtin_Send p ctx email en with
      | Builtin.Panics reason => Builtin.Panics reason
      | Builtin.Returns (inr err, en') =>
          batchLoop p ctx (i + 1) rest successful
                    (failed ++ [BatchFailure.mk i email (Some err)])%list en'
      | Builtin.Returns (inl r, en') =>
          batchLoop p ctx (i + 1) rest (successful ++ [r])%list failed en'
      end
  end.

(** [Provider.SendBatch] of those providers: when it returns, the error is
    [nil]. *)
Definition Builtin_SendBatch (p : Builtin.t X) (ctx : Context)
           (emails : list Email.t) (en : Env X)
  : Builtin.reply ((option BatchResult.t * option error) * Env X) :=
  match batchLoop p ctx 0 emails [] [] en with
  | Builtin.Panics reason => Builtin.Panics reason
  | Builtin.Returns ((successful, failed), en') =>
      Builtin.Returns
        ((Some (BatchResult.mk (len emails) successful failed (Builtin.name p)),
          None), en')
  end.

(** The same loop on e-mails that all have a recipient, where no [Send]
    panics. *)
Fixpoint batchSends (p : Builtin.t X) (ctx : Context) (i : Z)
         (emails : list Email.t) (successful : list SendResult.t)
         (failed : list BatchFailure.t) (en : Env X)
  : (list SendResult.t * list BatchFailure.t) * Env X :=
  match emails with
  | [] => ((successful, failed), en)
  | email :: rest =>
      match Builtin.send p ctx email en with
      | (inr err, en') =>
          batchSends p ctx (i + 1) rest successful
                     (failed ++ [BatchFailure.mk i email (Some err)])%list en'
      | (inl r, en') =>
          batchSends p ctx (i + 1) rest (successful ++ [r])%list failed en'
      end
  end.

(** Such a provider behind the [core.Provider] interface, as the client
    reaches it.  [Provider.t] has no panic outcome, and the client hands a
    provider only e-mails that have a recipient: [Client.Send] reads
    [email.To[0]] itself and [Client.SendBatch] validates every e-mail before
    the provider is called.  On those [Send] and [SendBatch] are as here
    (lemma [asProvider_on_recipients]). *)
Definition asProvider (p : Builtin.t X) : Provider.t X :=
  Provider.mk (Builtin.name p)
    (fun ctx email en =>
       match Builtin.send p ctx email en with
       | (inl r, en') => ((Some r, None), en')
       | (inr err, en') => ((None, Some err), en')
       end)
    (fun ctx emails en =>
       let '((successful, failed), en') := batchSends p ctx 0 emails [] [] en in
       ((Some (BatchResult.mk (len emails) successful failed (Builtin.name p)),
         None), en')).

End BuiltinProviders.

(** *** Client.SendTemplate *)

Module TemplateRequest.
(** [Options] is never read by the client; [Priority] has no counterpart in
    the e-mail record used here.  [D] is the type of [Data], [V] that of the
    metadata values. *)
Record t {D V : Type} : Type := mk {
  Template : string;
  To : list Address.t;
  From : Address.t;
  CC : list Address.t;
  BCC : list Address.t;
  Subject : string;
  Data : D;
  Headers : list (string * string);
  Metadata : list (string * V)
}.
Arguments t : clear implicits.
Arguments mk {D V} Template To From CC BCC Subject Data Headers Metadata.
End TemplateRequest.

Section Templates.
Context {lib : GoLib} {X D V : Type}.

(** The [Render] method of the client's template engine, and
    [fmt.Sprintf("%v", v)] on a metadata value. *)
Variable Render : string -> D -> Env X -> (string * option error) * Env X.
Variable Sprint : V -> string.

(** One rendering step of [SendTemplate]: the text, or the [TemplateError]
    to return.  A template that is not found is not an error. *)
Definition renderPart (template suffix what : string) (data : D)
           (s : Store X) : (string + error) * Store X :=
  let '((text, err), en) := Render (template ++ suffix) data (env s) in
  match err with
  | Some e =>
      if errorsIsSentinel "template not found" e
      then (inl text, set_env s en)
      else (inr (NewTemplateError template "render" what err), set_env s en)
  | None => (inl text, set_env s en)
  end.

(** [Client.SendTemplate]. *)
Definition SendTemplate (c : Client.t X) (ctx : Context)
           (req : TemplateRequest.t D V) (s : Store X)
  : outcome X (option error) :=
  if closed s then Ret (Some ErrClientClosed) s
  else
    match Client.templateEng c with
    | None => Ret (Some (Sentinel "template engine not enabled")) s
    | Some _ =>
        let template := TemplateRequest.Template req in
        let data := TemplateRequest.Data req in
        let '(subject, s1) :=
          if String.eqb (TemplateRequest.Subject req) ""
          then renderPart template ".subject" "failed to render subject" data s
          else (inl (TemplateRequest.Subject req), s) in
        match subject with
        | inr e => Ret (Some e) s1
        | inl renderedSubject =>
            match renderPart template ".html" "failed to render HTML body"
                             data s1 with
            | (inr e, s2) => Ret (Some e) s2
            | (inl renderedHTMLBody, s2) =>
                match renderPart template ".text" "failed to render text body"
                                 data s2 with
                | (inr e, s3) => Ret (Some e) s3
                | (inl renderedTextBody, s3) =>
                    Send c ctx
                         (Email.mk (TemplateRequest.From req)
                                   (TemplateRequest.To req)
                                   (TemplateRequest.CC req)
                                   (TemplateRequest.BCC req)
                                   renderedSubject renderedHTMLBody
                                   renderedTextBody
                                   (TemplateRequest.Headers req)
                                   (map (fun kv => (fst kv, Sprint (snd kv)))
                                        (TemplateRequest.Metadata req)))
                         s3
                end
            end
        end
    end.

End Templates.

(** *** Vocabulary of the further statements *)

Section MoreVocabulary.
Context {lib : GoLib} {X : Type}.

(** The client with its fallback provider removed. *)
Definition withoutFallback (c : Client.t X) : Client.t X :=
  Client.mk (Client.provider c) None (Client.templateEng c)
            (Client.retryManager c) (Client.rateLimiter c)
            (Client.circuitBreaker c).

(** The [BatchItemError]s a list of [BatchFailure]s becomes in
    [SendBatch]. *)
Definition itemErrors (failed : list BatchFailure.t)
  : list (Z * option error) :=
  map (fun f => (BatchFailure.Index f, BatchFailure.Error f)) failed.

(** Indices that increase strictly and stay within [[lo, hi)]. *)
Definition increasingWithin (lo hi : Z) (indices : list Z) : Prop :=
  StronglySorted Z.lt indices /\ Forall (fun k => lo <= k < hi) indices.

End MoreVocabulary.


Section ItemVocabulary.
Context {lib : GoLib} {X : Type}.


End ItemVocabulary.

(** An e-mail with at least one To address. *)
Definition hasRecipient (email : Email.t) : Prop := Email.To email <> [].

(** What a listed failure says: it carries the e-mail at its index and an
    error, [i] being the index of the first e-mail. *)
Definition listsFailedEmail (i : Z) (emails : list Email.t)
           (f : BatchFailure.t) : Prop :=
  nth_error emails (Z.to_nat (BatchFailure.Index f - i))
  = Some (BatchFailure.Email f)
  /\ BatchFailure.Error f <> None.

(** What a run of recorded results keeps true, [f] being the number of
    failures so far: the count is [f], the breaker is open exactly from the
    threshold on, and the last failure lies in the window. *)
Definition counted {X : Type} (cfg : CircuitBreakerConfig.t) (lo hi : Z)
           (s : Store X) (f : Z) : Prop :=
  Breaker.failureCount (breaker s) = f
  /\ 0 <= f
  /\ Breaker.state (breaker s)
     = (if CircuitBreakerConfig.FailureThreshold cfg <=? f
        then CircuitBreakerOpen else CircuitBreakerClosed)
  /\ (f = 0 \/ lo <= Breaker.lastFailTime (breaker s) <= hi).

(** ** Further fixtures *)

Module MoreFixtures.
Import Fixtures.
#[local] Existing Instance asciiLib.

Definition twoRecipients : Email.t :=
  mail ["a@example.com"; "nobody"] "hi".

Definition breaker2 : CircuitBreakerConfig.t :=
  CircuitBreakerConfig.mk true 2 2 60000000000 300000000000.

(** A failure, a success and a failure, at instants 10, 20 and 30. *)
Definition mixedResults : list (option error * Env Log) :=
  [(Some retryableErr, mkEnv 10 [] []); (None, mkEnv 20 [] []);
   (Some retryableErr, mkEnv 30 [] [])].

(** A unit of work that logs its call and succeeds, and one that fails. *)
Definition succeed : @Work Log :=
  fun s => (None, set_env s (note "work" (env s))).
Definition failWith (e : error) : @Work Log :=
  fun s => (Some e, set_env s (note "work" (env s))).

(** A store whose breaker is half-open with no success yet. *)
Definition halfOpenStore : Store Log :=
  mkStore (mkEnv 0 [] []) false (Breaker.mk CircuitBreakerHalfOpen 3 0 0) 0.

Definition perCall : RateLimitConfig.t :=
  RateLimitConfig.mk true 100 60000000000 3 false.
Definition zeroRate : RateLimitConfig.t :=
  RateLimitConfig.mk true 0 60000000000 3 true.

Definition cancelled : Context := mkContext (Some 0) context_Canceled.

(** The library on a 64-bit x86 machine, where an out-of-range conversion
    to [int64] gives the smallest value. *)
Definition amd64 : GoLib := binary64 (fun _ => MinInt64) asciiLib.


(** A delay of 100000001 nanoseconds, growing by half. *)
Definition oddWait : @RetryConfig.t amd64 :=
  @RetryConfig.mk amd64 true 3 100000001 5000000000
                  (Float64.div (Float64.ofInt 3) (Float64.ofInt 2)) false.


Definition retry0 : RetryConfig.t :=
  RetryConfig.mk true 0 100000000 5000000000 (2 : Z) false.
Definition retry2 : RetryConfig.t :=
  RetryConfig.mk true 2 100000000 5000000000 (2 : Z) false.
Definition jittery : RetryConfig.t :=
  RetryConfig.mk true 3 100000000 5000000000 (2 : Z) true.

(** A foreign failure that is retryable and asks for seven seconds. *)
Definition throttled : error :=
  EForeign (Some true) (Some true) (Some 7000000000) None.

(** The number of calls logged. *)
Definition calls (l : Log) : nat := List.length l.

(** Primary failing retryably with an accepting fallback, behind the
    breaker with a threshold of three. *)
Definition backedUp : Client.t Log :=
  Client.mk (failing "primary" retryableErr)
            (Some (choosy "fallback" "nobody" fatalErr None))
            None (Some retry3) None (Some breaker3).

(** Primary always failing retryably; retries, nothing else. *)
Definition stubborn : Client.t Log :=
  Client.mk (failing "primary" retryableErr) None None (Some retry3) None None.

(** Primary answering its batch call with one failure, at index 1. *)
Definition partial : Client.t Log :=
  Client.mk
    (Provider.mk "primary"
       (fun _ _ e => ((None, Some fatalErr), note "primary.Send" e))
       (fun _ emails e =>
          ((Some (BatchResult.mk (Z.of_nat (List.length emails)) []
                    [BatchFailure.mk 1 toB (Some fatalErr)] "primary"),
            None), note "primary.SendBatch" e)))
    None None None None None.

(** A provider of the built-in kind that rejects one recipient. *)
Definition smtpLike : Builtin.t Log :=
  Builtin.mk "smtp" false
    (fun _ email e =>
       if String.eqb (firstTo email) "b@example.com"
       then (inr fatalErr, note "smtp.Send" e)
       else (inl (SendResult.mk "id" "smtp" (clock e)), note "smtp.Send" e)).

(** One that reads the first recipient unchecked and accepts every
    e-mail. *)
Definition mailgunLike : Builtin.t Log :=
  Builtin.mk "mailgun" true
    (fun _ _ e => (inl (SendResult.mk "id" "mailgun" (clock e)),
                   note "mailgun.Send" e)).

Definition viaSmtp : Client.t Log :=
  Client.mk (asProvider smtpLike)
            (Some (choosy "fallback" "nobody" fatalErr None))
            None None None None.

(** A template engine holding the given texts by name; rendering logs the
    name. *)
Fixpoint lookup (name : string) (templates : list (string * string))
  : option string :=
  match templates with
  | [] => None
  | (n, text) :: rest => if String.eqb n name then Some text else lookup name rest
  end.

Definition renderFrom (templates : list (string * string))
           (broken : list string) (name : string) (_ : unit) (e : Env Log)
  : (string * option error) * Env Log :=
  if existsb (String.eqb name) broken
  then (("", Some (ETemplate name "render" "failed to execute HTML template"
                             (Some (Sentinel "boom")))),
        note ("render " ++ name) e)
  else
    match lookup name templates with
    | Some text => ((text, None), note ("render " ++ name) e)
    | None => (("", Some ErrTemplateNotFound), note ("render " ++ name) e)
    end.

Definition welcomeTemplates : list (string * string) :=
  [("welcome.subject", "Welcome"); ("welcome.html", "<p>hello</p>")].

Definition welcome (subject : string) : TemplateRequest.t unit Z :=
  TemplateRequest.mk "welcome" [addr "a@example.com"]
                     (addr "noreply@example.com") [] [] subject tt []
                     [("attempt", 1)].

(** One provider that accepts everything, with a template engine. *)
Definition templated : Client.t Log :=
  Client.mk (choosy "primary" "nobody" fatalErr None) None (Some engine)
            None None None.

End MoreFixtures.

(** ** Classification of failures *)

Section Classification.
Context {lib : GoLib} {X : Type}.
Implicit Types (c : Client.t X) (ctx : Context) (email : Email.t)
         (s : Store X).

Lemma Validate_None_To email : Validate email = None -> Email.To email <> [].
Proof.
  unfold Validate. intros H Hto. rewrite Hto in H.
  destruct (Valid (Email.From email)); discriminate H.
Qed.

Lemma IsRetryable_nil : IsRetryable None = false.
Proof. reflexivity. Qed.

Lemma IsRetryable_rate_limit e :
  isRateLimitError e = true -> IsRetryable (Some e) = false.
Proof. destruct e; simpl; intros H; try discriminate H; reflexivity. Qed.

Lemma IsRetryable_circuit_open : IsRetryable (Some ErrCircuitBreakerOpen) = false.
Proof. reflexivity. Qed.

Lemma sendFn_withoutRetry c ctx email :
  sendFn (withoutRetry c) ctx email = sendFn c ctx email.
Proof. reflexivity. Qed.

Lemma guarded_withoutRetry c ctx email :
  guarded (withoutRetry c) ctx email = guarded c ctx email.
Proof. reflexivity. Qed.

(** When the guarded call ends with a failure that is not retryable,
    [dispatch] returns it with the store the guarded call left. *)
Lemma dispatch_not_retryable c ctx email s e s1 :
  guarded c ctx email s = (Some e, s1) ->
  IsRetryable (Some e) = false ->
  dispatch c ctx email s = Ret (Some e) s1.
Proof.
  intros Hg Hr. unfold dispatch. rewrite Hg.
  destruct (Client.retryManager c); [rewrite Hr|]; reflexivity.
Qed.

(** Without a retry manager [dispatch] is the guarded call. *)
Lemma dispatch_withoutRetry c ctx email s :
  dispatch (withoutRetry c) ctx email s
  = let (err, s1) := guarded c ctx email s in Ret err s1.
Proof.
  unfold dispatch. rewrite guarded_withoutRetry.
  destruct (guarded c ctx email s) as [[e|] s1]; reflexivity.
Qed.

(** C9.  [IsRetryable] answers [false] for the [nil] error, for every
    [*RateLimitError] and for [ErrCircuitBreakerOpen].  Hence, when the
    guarded unit of work of a [Send] call ends with a rate-limited or a
    circuit-open failure, the call returns that failure with the store the
    guarded call left: the retry manager is not run, and the call ends as
    it does for the same client without a retry manager. *)
Theorem C9_rate_limited_and_circuit_open_never_retried :
  IsRetryable None = false
  /\ (forall m d l w, IsRetryable (Some (ERateLimit m d l w)) = false)
  /\ IsRetryable (Some ErrCircuitBreakerOpen) = false
  /\ (forall c ctx email s e s1,
        guarded c ctx email s = (Some e, s1) ->
        isRateLimitError e = true \/ e = ErrCircuitBreakerOpen ->
        dispatch c ctx email s = Ret (Some e) s1)
  /\ (forall c ctx email s e s1,
        Send (withoutRetry c) ctx email s = Ret (Some e) s1 ->
        isRateLimitError e = true \/ e = ErrCircuitBreakerOpen ->
        Send c ctx email s = Ret (Some e) s1).
Proof.
  split; [exact IsRetryable_nil|].
  split; [intros; reflexivity|].
  split; [exact IsRetryable_circuit_open|].
  assert (Hnr : forall e, isRateLimitError e = true \/ e = ErrCircuitBreakerOpen
                          -> IsRetryable (Some e) = false).
  { intros e [H| ->]; [now apply IsRetryable_rate_limit | reflexivity]. }
  split.
  - intros c ctx email s e s1 Hg He.
    apply dispatch_not_retryable; [exact Hg | now apply Hnr].
  - intros c ctx email s e s1 Hs He.
    assert (Hd : forall s0, dispatch (withoutRetry c) ctx email s0 = Ret (Some e) s1
                            -> dispatch c ctx email s0 = Ret (Some e) s1).
    { intros s0 H0. rewrite dispatch_withoutRetry in H0.
      destruct (guarded c ctx email s0) as [err s2] eqn:Hg.
      inversion H0; subst. apply dispatch_not_retryable; [exact Hg | now apply Hnr]. }
    unfold Send in *. simpl in Hs.
    destruct (closed s); [exact Hs|].
    destruct (Email.To email); [exact Hs|].
    destruct (Validate email); [exact Hs|].
    destruct (Client.rateLimiter c) as [rl|]; [|now apply Hd].
    destruct (Wait rl ctx email s) as [[e'|] s'|r]; [exact Hs | now apply Hd | exact Hs].
Qed.

End Classification.

(** ** Send, Close and the retry manager *)

Section SendAndClose.
Context {lib : GoLib} {X : Type}.
Implicit Types (c : Client.t X) (ctx : Context) (email : Email.t)
         (s : Store X) (fn : @Work X).

(** C8.  On an open client, [Send] of an e-mail with an empty [To] list
    panics on [email.To[0]], before [Validate] is reached; [Validate] on
    that e-mail returns the "at least one recipient required" error
    whenever the sender address is valid. *)
Theorem C8_send_empty_to_panics c ctx email s :
  closed s = false ->
  Email.To email = [] ->
  Send c ctx email s
  = Panic "runtime error: index out of range [0] with length 0"
  /\ (Valid (Email.From email) = true ->
      Validate email
      = Some (EValidation "to" "at least one recipient required")).
Proof.
  intros Hopen Hto. split.
  - unfold Send. rewrite Hopen, Hto. reflexivity.
  - intros Hfrom. unfold Validate. rewrite Hfrom, Hto. reflexivity.
Qed.

Lemma Close_closed c s : closed s = true -> Close c s = (None, s).
Proof. intros H. unfold Close. rewrite H. reflexivity. Qed.

(** Whatever it returns, [Close] leaves the [closed] flag set. *)
Lemma Close_sets_closed c s : closed (snd (Close c s)) = true.
Proof.
  unfold Close. destruct (closed s) eqn:Hc; [exact Hc|].
  destruct (Client.templateEng c) as [te|]; [|reflexivity].
  destruct (TemplateEngine.Closer te) as [close|]; [|reflexivity].
  simpl. destruct (close (env s)) as [[e|] e']; reflexivity.
Qed.

(** C10.  [Close] on a closed client returns [nil] and changes nothing in
    the store: the flag stays set and the template engine's [Close] is not
    run again.  In particular a second [Close] after any first one, failed
    or not, is such a call. *)
Theorem C10_close_idempotent c s :
  (closed s = true -> Close c s = (None, s))
  /\ Close c (snd (Close c s)) = (None, snd (Close c s)).
Proof.
  split; [apply Close_closed|].
  apply Close_closed, Close_sets_closed.
Qed.


(** C6.  With retries enabled and [MaxAttempts >= 1], when the first
    invocation of the unit of work fails with an error that is not
    retryable, [Retry] returns that very error and the store that single
    invocation left: no second invocation, no delay computed, no wait. *)
Theorem C6_non_retryable_failure_single_attempt
        (cfg : RetryConfig.t) ctx fn s e s1 :
  RetryConfig.Enabled cfg = true ->
  1 <= RetryConfig.MaxAttempts cfg ->
  fn s = (Some e, s1) ->
  IsRetryable (Some e) = false ->
  Retry cfg ctx fn s = (Some e, s1).
Proof.
  intros Hen Hmax Hfn Hnr. unfold Retry. rewrite Hen. simpl.
  destruct (Z.to_nat (RetryConfig.MaxAttempts cfg)) as [|n] eqn:Hn; [lia|].
  simpl. rewrite Hfn, Hnr. reflexivity.
Qed.

End SendAndClose.

(** ** The circuit breaker *)

Section BreakerProperties.
Context {lib : GoLib} {X : Type}.
Implicit Types (cfg : CircuitBreakerConfig.t) (s : Store X) (fn : @Work X).

Lemma geb_false x y : x < y -> (x >=? y) = false.
Proof. intros H. rewrite Z.geb_leb. apply Z.leb_gt. exact H. Qed.

Lemma geb_true x y : y <= x -> (x >=? y) = true.
Proof. intros H. rewrite Z.geb_leb. apply Z.leb_le. exact H. Qed.

Lemma incr_small x : 0 <= x < MaxInt64 -> incr x = x + 1.
Proof.
  unfold incr, wrap64, MaxInt64. intros H.
  rewrite Z.mod_small; lia.
Qed.

(** From a closed breaker whose count is [k] failures short of the
    threshold, [k >= 1] recorded failures open it. *)
Lemma recordFailures_opens cfg obs : forall s,
  obs <> [] ->
  Breaker.state (breaker s) = CircuitBreakerClosed ->
  0 <= Breaker.failureCount (breaker s) ->
  Breaker.failureCount (breaker s) + len obs
  = CircuitBreakerConfig.FailureThreshold cfg ->
  CircuitBreakerConfig.FailureThreshold cfg <= MaxInt64 ->
  let s' := recordFailures cfg obs s in
  Breaker.state (breaker s') = CircuitBreakerOpen
  /\ Breaker.failureCount (breaker s')
     = CircuitBreakerConfig.FailureThreshold cfg
  /\ exists e en, last obs (e, en) = (e, en)
                  /\ Breaker.lastFailTime (breaker s') = clock en.
Proof.
  induction obs as [|[e en] rest IH]; intros s Hne Hst Hc Hsum Hmax;
    [congruence|].
  unfold len in Hsum. simpl List.length in Hsum.
  rewrite Nat2Z.inj_succ in Hsum.
  assert (Hincr : incr (Breaker.failureCount (breaker s))
                  = Breaker.failureCount (breaker s) + 1).
  { apply incr_small. lia. }
  destruct rest as [|o rest'].
  - simpl in Hsum. simpl. rewrite Hst, Hincr. simpl.
    rewrite geb_true by lia.
    simpl. repeat split; [lia|]. exists e, en. split; reflexivity.
  - cbn [recordFailures].
    set (s1 := recordResult cfg (Some e) (set_env s en)).
    assert (H1 : Breaker.state (breaker s1) = CircuitBreakerClosed
                 /\ Breaker.failureCount (breaker s1)
                    = Breaker.failureCount (breaker s) + 1).
    { unfold s1, recordResult. simpl. rewrite Hst, Hincr. simpl.
      rewrite geb_false; [split; reflexivity|].
      simpl List.length in Hsum. rewrite Nat2Z.inj_succ in Hsum. lia. }
    destruct H1 as [Hst1 Hc1].
    specialize (IH s1). cbn [recordFailures] in IH.
    destruct IH as (Ho & Hf & e' & en' & Hl & Ht);
      [discriminate | exact Hst1 | lia | unfold len; lia | exact Hmax |].
    repeat split; [exact Ho | exact Hf |].
    exists e', en'. split; [|exact Ht].
    exact Hl.
Qed.

(** On a closed breaker [Execute] runs the unit of work once and records
    its result. *)
Lemma Execute_closed_records cfg fn s :
  CircuitBreakerConfig.Enabled cfg = true ->
  Breaker.state (breaker s) = CircuitBreakerClosed ->
  Execute cfg fn s
  = (fst (fn s), recordResult cfg (fst (fn s)) (snd (fn s))).
Proof.
  intros Hen Hst. unfold Execute, canExecute. rewrite Hen, Hst. simpl.
  destruct (fn s); reflexivity.
Qed.

(** An open breaker whose timeout has not elapsed rejects the call: the
    unit of work is not run and the store is untouched. *)
Lemma Execute_open_rejects cfg fn s :
  CircuitBreakerConfig.Enabled cfg = true ->
  Breaker.state (breaker s) = CircuitBreakerOpen ->
  Since s (Breaker.lastFailTime (breaker s)) < CircuitBreakerConfig.Timeout cfg ->
  Execute cfg fn s = (Some ErrCircuitBreakerOpen, s).
Proof.
  intros Hen Hst Ht. unfold Execute, canExecute. rewrite Hen, Hst. simpl.
  rewrite geb_false by exact Ht. reflexivity.
Qed.

(** C4.  Take a fresh enabled breaker (closed, both counters at zero) with
    a threshold of at least one.  After [FailureThreshold] consecutive
    recorded failures its state is open; and an [Execute] on that breaker
    made before [Timeout] has elapsed since the last failure returns
    [ErrCircuitBreakerOpen] with the store untouched, whatever the unit of
    work: it is not invoked. *)
Theorem C4_threshold_failures_open_and_reject
        cfg (obs : list (error * Env X)) s0 :
  CircuitBreakerConfig.Enabled cfg = true ->
  1 <= CircuitBreakerConfig.FailureThreshold cfg <= MaxInt64 ->
  breaker s0 = NewCircuitBreaker ->
  len obs = CircuitBreakerConfig.FailureThreshold cfg ->
  let s1 := recordFailures cfg obs s0 in
  Breaker.state (breaker s1) = CircuitBreakerOpen
  /\ (exists e en, last obs (e, en) = (e, en)
                   /\ Breaker.lastFailTime (breaker s1) = clock en)
  /\ forall fn s,
       breaker s = breaker s1 ->
       Since s (Breaker.lastFailTime (breaker s1))
       < CircuitBreakerConfig.Timeout cfg ->
       Execute cfg fn s = (Some ErrCircuitBreakerOpen, s).
Proof.
  intros Hen [Hlo Hhi] Hfresh Hlen s1.
  destruct (recordFailures_opens cfg obs s0) as (Ho & _ & Hlast).
  - intros ->. unfold len in Hlen. simpl in Hlen. lia.
  - rewrite Hfresh. reflexivity.
  - rewrite Hfresh. simpl. lia.
  - rewrite Hfresh. simpl. exact Hlen.
  - exact Hhi.
  - split; [exact Ho|]. split; [exact Hlast|].
    intros fn s Hb Ht. apply Execute_open_rejects; [exact Hen | | ].
    + rewrite Hb. exact Ho.
    + rewrite Hb. exact Ht.
Qed.

End BreakerProperties.

(** ** Batches *)

Section BatchProperties.
Context {lib : GoLib} {X : Type}.
Implicit Types (c : Client.t X) (ctx : Context) (email : Email.t)
         (emails : list Email.t) (s : Store X).

(** [validateAll] stops at the first e-mail that fails [Validate] and
    reports its position. *)
Lemma validateAll_first_invalid emails : forall i,
  (exists email, In email emails /\ Validate email <> None) ->
  exists k email v,
    nth_error emails k = Some email
    /\ Validate email = Some v
    /\ (forall j email', (j < k)%nat -> nth_error emails j = Some email' ->
                         Validate email' = None)
    /\ validateAll i emails
       = Some (EWrap ("email at index " ++ Itoa (i + Z.of_nat k) ++ ": ") v).
Proof.
  induction emails as [|a rest IH]; intros i [email [Hin Hbad]];
    [destruct Hin|].
  destruct (Validate a) as [v|] eqn:Ha.
  - exists 0%nat, a, v. repeat split; [exact Ha | intros; lia |].
    simpl. rewrite Ha, Z.add_0_r. reflexivity.
  - destruct Hin as [->|Hin]; [congruence|].
    destruct (IH (i + 1)) as (k & e' & v & Hn & Hv & Hfirst & Hall);
      [exists email; split; assumption|].
    exists (S k), e', v. repeat split; [exact Hn | exact Hv | |].
    + intros [|j] email' Hj Hnth; simpl in Hnth.
      * inversion Hnth; subst. exact Ha.
      * apply (Hfirst j); [lia | exact Hnth].
    + cbn [validateAll]. rewrite Ha, Hall. rewrite Nat2Z.inj_succ.
      replace (i + 1 + Z.of_nat k) with (i + Z.succ (Z.of_nat k)) by lia.
      reflexivity.
Qed.

(** C7.  [SendBatch] validates every message before it sends any: when
    some message of the batch is invalid, an open client returns the
    validation error of the first invalid message wrapped with its index,
    and the store is exactly what it was: no provider call, batched or
    individual, no token taken, no breaker update. *)
Theorem C7_batch_validation_is_atomic c ctx emails s :
  closed s = false ->
  (exists email, In email emails /\ Validate email <> None) ->
  exists k email v,
    nth_error emails k = Some email
    /\ Validate email = Some v
    /\ (forall j email', (j < k)%nat -> nth_error emails j = Some email' ->
                         Validate email' = None)
    /\ SendBatch c ctx emails s
       = Ret (Some (EWrap ("email at index " ++ Itoa (Z.of_nat k) ++ ": ") v)) s.
Proof.
  intros Hopen Hbad.
  destruct (validateAll_first_invalid emails 0 Hbad)
    as (k & email & v & Hn & Hv & Hfirst & Hall).
  exists k, email, v. repeat split; [exact Hn | exact Hv | exact Hfirst |].
  unfold SendBatch. rewrite Hopen.
  destruct emails as [|a rest]; [destruct k; discriminate Hn|].
  replace (len (a :: rest) =? 0) with false.
  - rewrite Hall. reflexivity.
  - symmetry. apply Z.eqb_neq. unfold len. simpl List.length. lia.
Qed.

End BatchProperties.

(** ** The rate limiter *)

Section LimiterProperties.
Context {lib : GoLib} {X : Type}.
Implicit Types (cfg : RateLimitConfig.t) (ctx : Context) (email : Email.t)
         (s : Store X).

Lemma set_tokens_same s : set_tokens s (tokens s) = s.
Proof. destruct s; reflexivity. Qed.

(** With a live context and fewer tokens than iterations, the loop takes
    every token, one per iteration, and then fails at the empty bucket. *)
Lemma acquire_short cfg ctx : forall n s,
  ctxDone ctx (env s) = false ->
  RateLimitConfig.Rate cfg <> 0 ->
  (tokens s < n)%nat ->
  acquire cfg ctx n s = Ret (Some (rateLimited cfg)) (set_tokens s 0).
Proof.
  induction n as [|n IH]; intros s Hctx Hrate Hlt; [lia|].
  cbn [acquire]. unfold selectWait. rewrite Hctx.
  destruct (tokens s) as [|t] eqn:Ht.
  - apply Z.eqb_neq in Hrate. rewrite Hrate.
    rewrite <- Ht, set_tokens_same. reflexivity.
  - rewrite IH; [reflexivity | exact Hctx | exact Hrate | simpl; lia].
Qed.

(** C2, as the code has it.  For an enabled limiter with a non-zero rate
    and a live context, an acquire of weight [w] greater than the [t]
    tokens in the bucket returns the rate-limited failure, with retry-after
    [Period / Rate], and leaves the bucket empty: the [t] tokens were taken
    one at a time before the shortage was met and are not put back.  (No
    token is consumed only when [t = 0].) *)
Theorem C2_failed_acquire_drains_bucket cfg ctx email s :
  RateLimitConfig.Enabled cfg = true ->
  RateLimitConfig.Rate cfg <> 0 ->
  ctxDone ctx (env s) = false ->
  weightOf cfg email > Z.of_nat (tokens s) ->
  Wait cfg ctx email s = Ret (Some (rateLimited cfg)) (set_tokens s 0).
Proof.
  intros Hen Hrate Hctx Hw. unfold Wait. rewrite Hen. simpl.
  apply acquire_short; [exact Hctx | exact Hrate |].
  unfold weightOf in Hw. lia.
Qed.

End LimiterProperties.

(** ** Batch degradation *)

Section Degradation.
Context {lib : GoLib} {X : Type}.
Implicit Types (c : Client.t X) (ctx : Context) (email : Email.t)
         (emails : list Email.t) (s : Store X).

(** One iteration of the loop of [sendBatchIndividually] on a message with
    a recipient. *)
Lemma sendEach_cons c ctx i email rest sc fc errs s :
  Email.To email <> [] ->
  sendEach c ctx i (email :: rest) sc fc errs s
  = match Send c ctx email s with
    | Panic r => Panic r
    | Ret (Some err) s' =>
        sendEach c ctx (i + 1) rest sc (incr fc)
                 (errs ++ [(i, Some err)])%list s'
    | Ret None s' => sendEach c ctx (i + 1) rest (incr sc) fc errs s'
    end.
Proof.
  intros Hto. cbn [sendEach]. destruct (Email.To email); [congruence|].
  reflexivity.
Qed.

(** C3, as the code has it.  Take a client with a fallback provider and a
    batch of three messages.  (a) When message 1 is invalid (message 0
    being valid), [SendBatch] returns that validation failure wrapped with
    index 1 and leaves the store untouched: nothing is sent by any
    provider and no batch outcome is built.  (b) When the three messages
    are valid, the primary's batch call fails outright, and of the
    individual sends the one of message 1 fails while those of messages 0
    and 2 succeed, [SendBatch] returns a batch error with total 3, one
    failure, and that failure recorded under index 1. *)
Theorem C3_batch_of_three_with_fallback c ctx e0 e1 e2 s fb :
  closed s = false ->
  Client.fallback c = Some fb ->
  Validate e0 = None ->
  (forall v, Validate e1 = Some v ->
     SendBatch c ctx [e0; e1; e2] s
     = Ret (Some (EWrap "email at index 1: " v)) s)
  /\ (forall r berr env1 s2 err s3 s4,
        Validate e1 = None ->
        Validate e2 = None ->
        Provider.SendBatch (Client.provider c) ctx [e0; e1; e2] (env s)
        = ((r, Some berr), env1) ->
        Send c ctx e0 (set_env s env1) = Ret None s2 ->
        Send c ctx e1 s2 = Ret (Some err) s3 ->
        Send c ctx e2 s3 = Ret None s4 ->
        SendBatch c ctx [e0; e1; e2] s
        = Ret (Some (EBatch "1/3 emails failed in fallback individual send"
                            [(1, Some err)] 3 1)) s4).
Proof.
  intros Hopen Hfb Hv0. split.
  - intros v Hv1. unfold SendBatch. rewrite Hopen.
    cbn [len List.length Z.of_nat]. cbn [validateAll].
    rewrite Hv0, Hv1. reflexivity.
  - intros r berr env1 s2 err s3 s4 Hv1 Hv2 Hbatch H0 H1 H2.
    unfold SendBatch. rewrite Hopen.
    cbn [len List.length Z.of_nat]. cbn [validateAll].
    rewrite Hv0, Hv1, Hv2.
    unfold sendBatchWithProvider. rewrite Hbatch, Hfb.
    unfold sendBatchIndividually.
    rewrite sendEach_cons by (now apply Validate_None_To). rewrite H0.
    rewrite sendEach_cons by (now apply Validate_None_To). rewrite H1.
    rewrite sendEach_cons by (now apply Validate_None_To). rewrite H2.
    reflexivity.
Qed.

End Degradation.

(** ** Composition of the breaker and the retry manager in Send *)

Section Composition.
Context {lib : GoLib} {X : Type}.
Implicit Types (c : Client.t X) (ctx : Context) (email : Email.t)
         (s : Store X) (fn : @Work X).

Lemma sendFn_own c ctx email s : own (snd (sendFn c ctx email s)) = own s.
Proof.
  unfold sendFn, sendWithProvider.
  destruct (Provider.Send (Client.provider c) ctx email (env s))
    as [[r e] en]. simpl.
  destruct e as [e|]; [|reflexivity].
  destruct (Client.fallback c) as [fb|]; [|reflexivity].
  destruct (IsRetryable (Some e)); [|reflexivity].
  simpl. destruct (Provider.Send fb ctx email en) as [[r' e'] en'].
  reflexivity.
Qed.

Lemma calculateDelay_own (cfg : RetryConfig.t) attempt s :
  own (snd (calculateDelay cfg attempt s)) = own s.
Proof.
  unfold calculateDelay.
  destruct (RetryConfig.Jitter cfg); [|reflexivity].
  match goal with |- context [if ?b then _ else _] => destruct b end;
    [|reflexivity].
  match goal with |- context [randInt ?m ?e] => destruct (randInt m e) as [[j|] e'] end;
    reflexivity.
Qed.

Lemma awaitDelay_own ctx delay s : own (snd (awaitDelay ctx delay s)) = own s.
Proof.
  unfold awaitDelay. destruct (cancelledAt ctx) as [t|]; [|reflexivity].
  repeat match goal with
         | |- context [if ?b then _ else _] => destruct b
         | |- context [flip ?e] => destruct (flip e)
         end; reflexivity.
Qed.

(** The retry loop touches the client's own fields only through the unit
    of work. *)
Lemma retryLoop_own (cfg : RetryConfig.t) ctx fn :
  (forall s, own (snd (fn s)) = own s) ->
  forall n attempt lastErr s,
    own (snd (retryLoop cfg ctx fn n attempt lastErr s)) = own s.
Proof.
  intros Hfn. induction n as [|n IH]; intros attempt lastErr s; [reflexivity|].
  cbn [retryLoop]. specialize (Hfn s).
  destruct (fn s) as [[e|] s1]; simpl in Hfn; [|exact Hfn].
  destruct (negb (IsRetryable (Some e))); [exact Hfn|].
  destruct (attempt =? RetryConfig.MaxAttempts cfg); [exact Hfn|].
  pose proof (calculateDelay_own cfg attempt s1) as Hd.
  destruct (calculateDelay cfg attempt s1) as [d s2]. simpl in Hd.
  match goal with |- context [awaitDelay ctx ?d' s2] =>
    pose proof (awaitDelay_own ctx d' s2) as Ha;
    destruct (awaitDelay ctx d' s2) as [[ce|] s3] end; simpl in Ha.
  - simpl. congruence.
  - rewrite IH. congruence.
Qed.

Lemma Retry_own (cfg : RetryConfig.t) ctx fn s :
  (forall s, own (snd (fn s)) = own s) ->
  own (snd (Retry cfg ctx fn s)) = own s.
Proof.
  intros Hfn. unfold Retry.
  destruct (negb (RetryConfig.Enabled cfg)); [apply Hfn|].
  now apply retryLoop_own.
Qed.

(** A valid e-mail on an open client that gets past the rate limiter
    reaches [dispatch]. *)
Lemma Send_reaches_dispatch c ctx email s s0 :
  closed s = false ->
  Validate email = None ->
  admitted c ctx email s s0 ->
  Send c ctx email s = dispatch c ctx email s0.
Proof.
  intros Hopen Hv Hadm. unfold Send. rewrite Hopen, Hv.
  pose proof (Validate_None_To email Hv) as Hto.
  destruct (Email.To email); [congruence|].
  unfold admitted in Hadm.
  destruct (Client.rateLimiter c) as [rl|]; [rewrite Hadm | subst s0];
    reflexivity.
Qed.

(** C1, as the code has it.  In a [Send] call with a circuit breaker and a
    retry manager both configured, only the first invocation of the unit of
    work goes through [Execute].  When it fails retryably, the retry
    manager is handed the bare unit of work (primary provider, then
    fallback substitution): the call ends as that [Retry] ends, and the
    breaker's fields are those the first attempt left, whatever number of
    attempts the retry manager makes. *)
Theorem C1_retry_runs_outside_breaker c ctx email s s0 cb rm err1 s1 :
  closed s = false ->
  Validate email = None ->
  admitted c ctx email s s0 ->
  Client.circuitBreaker c = Some cb ->
  Client.retryManager c = Some rm ->
  Execute cb (sendFn c ctx email) s0 = (err1, s1) ->
  IsRetryable err1 = true ->
  exists err2 s2,
    Retry rm ctx (sendFn c ctx email) s1 = (err2, s2)
    /\ Send c ctx email s = Ret err2 s2
    /\ breaker s2 = breaker s1.
Proof.
  intros Hopen Hv Hadm Hcb Hrm Hex Hr.
  destruct (Retry rm ctx (sendFn c ctx email) s1) as [err2 s2] eqn:HR.
  exists err2, s2. split; [reflexivity|]. split.
  - rewrite (Send_reaches_dispatch c ctx email s s0 Hopen Hv Hadm).
    unfold dispatch, guarded. rewrite Hcb, Hex, Hrm.
    destruct err1 as [e1|]; [|discriminate Hr].
    rewrite Hr, HR. reflexivity.
  - pose proof (Retry_own rm ctx (sendFn c ctx email) s1
                          (sendFn_own c ctx email)) as Ho.
    rewrite HR in Ho. unfold own in Ho. simpl in Ho. congruence.
Qed.

End Composition.

(** ** Validation, in full *)

Section ValidationProperties.
Context {lib : GoLib}.
Implicit Types (e : Email.t) (xs : list Address.t).

Lemma firstInvalidFrom_None xs : forall i,
  firstInvalidFrom i xs = None <-> forallb Valid xs = true.
Proof.
  induction xs as [|x rest IH]; intros i; simpl; [tauto|].
  destruct (Valid x); simpl; [apply IH|]. split; discriminate.
Qed.

Lemma firstInvalidFrom_Some pre bad post : forall i,
  forallb Valid pre = true ->
  Valid bad = false ->
  firstInvalidFrom i (pre ++ bad :: post) = Some (i + len pre).
Proof.
  induction pre as [|x rest IH]; intros i Hpre Hbad.
  - simpl. rewrite Hbad. unfold len. simpl. f_equal. lia.
  - simpl in Hpre. apply andb_true_iff in Hpre. destruct Hpre as [Hx Hrest].
    cbn [app firstInvalidFrom]. rewrite Hx. rewrite IH by assumption.
    unfold len. cbn [List.length]. rewrite Nat2Z.inj_succ. f_equal. lia.
Qed.

Lemma length_zero_iff {A : Type} (l : list A) :
  (Z.of_nat (List.length l) =? 0) = true <-> l = [].
Proof.
  destruct l; simpl; split; intros H; try reflexivity; try discriminate.
Qed.

Lemma Validate_None_iff e : Validate e = None <-> wellFormed e.
Proof.
  unfold wellFormed. split.
  - unfold Validate. intros H.
    destruct (Valid (Email.From e)) eqn:Hf; simpl in H; [|discriminate H].
    destruct (Z.of_nat (List.length (Email.To e)) =? 0) eqn:Hl;
      [discriminate H|].
    destruct (firstInvalidFrom 0 (Email.To e)) eqn:H1; [discriminate H|].
    destruct (firstInvalidFrom 0 (Email.CC e)) eqn:H2; [discriminate H|].
    destruct (firstInvalidFrom 0 (Email.BCC e)) eqn:H3; [discriminate H|].
    destruct (blank (Email.Subject e)) eqn:Hs; [discriminate H|].
    destruct (blank (Email.TextBody e) && blank (Email.HTMLBody e)) eqn:Hb;
      [discriminate H|].
    apply firstInvalidFrom_None in H1, H2, H3.
    apply andb_false_iff in Hb.
    repeat split; try assumption.
    intros Hto. rewrite Hto in Hl. discriminate Hl.
  - intros (Hf & Hne & Hto & Hcc & Hbcc & Hs & Hb).
    unfold Validate. rewrite Hf. simpl.
    destruct (Z.of_nat (List.length (Email.To e)) =? 0) eqn:Hl;
      [apply length_zero_iff in Hl; congruence|].
    apply (firstInvalidFrom_None _ 0) in Hto, Hcc, Hbcc.
    rewrite Hto, Hcc, Hbcc, Hs.
    apply andb_false_iff in Hb. rewrite Hb. reflexivity.
Qed.

(** X1.  [Validate] returns [nil] exactly on the e-mails with a valid sender, at
    least one recipient, only valid To, CC and BCC addresses, a subject that
    is not blank and a text or HTML body that is not blank. *)
Theorem Validate_accepts_exactly_well_formed e :
  Validate e = None <-> wellFormed e.
Proof. exact (Validate_None_iff e). Qed.

(** X2.  Every error of [Validate] is a [*ValidationError] on one of the fields
    from, to, cc, bcc, subject, body; it is neither retryable nor temporary
    and carries no retry-after. *)
Theorem Validate_error_is_final e err :
  Validate e = Some err ->
  exists field message,
    err = EValidation field message
    /\ In field ["from"; "to"; "cc"; "bcc"; "subject"; "body"]
    /\ IsRetryable (Some err) = false
    /\ IsTemporary (Some err) = false
    /\ GetRetryAfter (Some err) = 0.
Proof.
  unfold Validate. intros H.
  repeat match type of H with
         | (if ?b then _ else _) = _ => destruct b
         | match ?x with _ => _ end = _ => destruct x
         end;
    inversion H; subst; eexists; eexists; (split; [reflexivity|]);
    (split; [simpl; tauto|]); repeat split.
Qed.

(** X3.  With a valid sender, [Validate] reports the position of the first
    invalid address, looking at To, then CC, then BCC, whatever the subject
    and the bodies are. *)
Theorem Validate_reports_first_invalid_address e pre bad post :
  Valid (Email.From e) = true ->
  forallb Valid pre = true ->
  Valid bad = false ->
  (Email.To e = (pre ++ bad :: post)%list ->
   Validate e
   = Some (EValidation "to"
             ("invalid recipient address at index " ++ Itoa (len pre))))
  /\ (Email.To e <> [] -> forallb Valid (Email.To e) = true ->
      Email.CC e = (pre ++ bad :: post)%list ->
      Validate e
      = Some (EValidation "cc"
                ("invalid CC address at index " ++ Itoa (len pre))))
  /\ (Email.To e <> [] -> forallb Valid (Email.To e) = true ->
      forallb Valid (Email.CC e) = true ->
      Email.BCC e = (pre ++ bad :: post)%list ->
      Validate e
      = Some (EValidation "bcc"
                ("invalid BCC address at index " ++ Itoa (len pre)))).
Proof.
  intros Hfrom Hpre Hbad.
  assert (Hnz : forall l : list Address.t,
             l <> [] -> (Z.of_nat (List.length l) =? 0) = false).
  { intros l Hl. destruct (Z.of_nat (List.length l) =? 0) eqn:E;
      [apply length_zero_iff in E; congruence | reflexivity]. }
  repeat split.
  - intros Hto. unfold Validate. rewrite Hfrom. simpl.
    rewrite Hnz by (rewrite Hto; destruct pre; discriminate).
    rewrite Hto, (firstInvalidFrom_Some pre bad post 0 Hpre Hbad).
    reflexivity.
  - intros Hne Hto Hcc. unfold Validate. rewrite Hfrom. simpl.
    rewrite Hnz by exact Hne.
    apply (firstInvalidFrom_None _ 0) in Hto. rewrite Hto.
    rewrite Hcc, (firstInvalidFrom_Some pre bad post 0 Hpre Hbad).
    reflexivity.
  - intros Hne Hto Hcc Hbcc. unfold Validate. rewrite Hfrom. simpl.
    rewrite Hnz by exact Hne.
    apply (firstInvalidFrom_None _ 0) in Hto. rewrite Hto.
    apply (firstInvalidFrom_None _ 0) in Hcc. rewrite Hcc.
    rewrite Hbcc, (firstInvalidFrom_Some pre bad post 0 Hpre Hbad).
    reflexivity.
Qed.

(** X4.  [AllRecipients] has [TotalRecipients] elements; on an e-mail that
    passes [Validate] there is at least one and all of them are valid. *)
Theorem AllRecipients_of_valid_email e :
  len (AllRecipients e) = TotalRecipients e
  /\ (Validate e = None ->
      1 <= TotalRecipients e /\ forallb Valid (AllRecipients e) = true).
Proof.
  split.
  - unfold AllRecipients, TotalRecipients, len.
    rewrite !length_app, !Nat2Z.inj_add. lia.
  - intros Hv. apply Validate_None_iff in Hv.
    destruct Hv as (_ & Hne & Hto & Hcc & Hbcc & _). split.
    + unfold TotalRecipients. destruct (Email.To e); [congruence|].
      cbn [List.length]. lia.
    + unfold AllRecipients. rewrite !forallb_app, Hto, Hcc, Hbcc. reflexivity.
Qed.

End ValidationProperties.

(** ** Classification through wrapping *)

Lemma asProviderError_wrapped prefixes p c m sc r t cause :
  asProviderError (wrapped prefixes (EProvider p c m sc r t cause))
  = Some (r, t).
Proof. induction prefixes as [|x rest IH]; simpl; [reflexivity | exact IH]. Qed.

(** X5.  The [IsRetryable] and [IsTemporary] flags of a [*ProviderError] are read
    through any number of [fmt.Errorf("...%w")] wrappers, whatever its own
    cause says.  An error that is retryable or temporary only through its
    [Retryable] or [Temporary] method loses that once wrapped: the methods
    are looked for on the outermost error alone. *)
Theorem classification_through_wrapping prefixes :
  (forall p c m sc r t cause,
      let e := wrapped prefixes (EProvider p c m sc r t cause) in
      IsRetryable (Some e) = r /\ IsTemporary (Some e) = t
      /\ GetRetryAfter (Some e) = 0)
  /\ (prefixes <> [] ->
      forall r t ra,
        let e := wrapped prefixes (EForeign r t ra None) in
        IsRetryable (Some e) = false /\ IsTemporary (Some e) = false
        /\ GetRetryAfter (Some e) = 0).
Proof.
  split.
  - intros p c m sc r t cause e. subst e.
    destruct prefixes as [|x rest]; [repeat split|].
    cbn [wrapped fold_right]. unfold IsRetryable, IsTemporary, GetRetryAfter.
    cbn [asRetryable asTemporary asProviderError].
    change (fold_right EWrap (EProvider p c m sc r t cause) rest)
      with (wrapped rest (EProvider p c m sc r t cause)).
    rewrite asProviderError_wrapped. repeat split.
  - intros Hne r t ra e. subst e.
    destruct prefixes as [|x rest]; [congruence|].
    cbn [wrapped fold_right]. unfold IsRetryable, IsTemporary, GetRetryAfter.
    cbn [asRetryable asTemporary asProviderError].
    assert (H : asProviderError (fold_right EWrap (EForeign r t ra None) rest)
                = None).
    { clear Hne. induction rest as [|y rest IH]; simpl; [reflexivity|exact IH]. }
    rewrite H. repeat split.
Qed.

(** ** The circuit breaker as a state machine *)

Section BreakerMachine.
Context {lib : GoLib} {X : Type}.
Implicit Types (cfg : CircuitBreakerConfig.t) (s : Store X) (fn : @Work X).

Lemma Time_Sub_small t u :
  MinInt64 <= t - u <= MaxInt64 -> Time_Sub t u = t - u.
Proof.
  intros H. unfold Time_Sub. cbv zeta.
  destruct (Z.gtb_spec (t - u) MaxInt64); [lia|].
  destruct (Z.ltb_spec (t - u) MinInt64); [lia|]. reflexivity.
Qed.

Lemma failuresIn_nonneg (obs : list (option error * Env X)) :
  0 <= failuresIn obs.
Proof.
  induction obs as [|[r en] rest IH]; [simpl; lia|].
  destruct r; cbn [failuresIn]; lia.
Qed.

Lemma record_failure_closed cfg e s :
  Breaker.state (breaker s) = CircuitBreakerClosed ->
  breaker (recordResult cfg (Some e) s)
  = Breaker.mk (if incr (Breaker.failureCount (breaker s))
                   >=? CircuitBreakerConfig.FailureThreshold cfg
                then CircuitBreakerOpen else CircuitBreakerClosed)
               (incr (Breaker.failureCount (breaker s)))
               (Breaker.successCount (breaker s)) (Now s).
Proof.
  intros Hst. unfold recordResult. destruct (breaker s) as [st fc sc lt].
  cbn in *. subst st. cbn. destruct (_ >=? _); reflexivity.
Qed.

Lemma record_failure_open cfg e s :
  Breaker.state (breaker s) <> CircuitBreakerClosed ->
  breaker (recordResult cfg (Some e) s)
  = Breaker.mk CircuitBreakerOpen (incr (Breaker.failureCount (breaker s)))
               (Breaker.successCount (breaker s)) (Now s).
Proof.
  intros Hst. unfold recordResult. destruct (breaker s) as [st fc sc lt].
  cbn in *. destruct st; cbn; try reflexivity. congruence.
Qed.

Lemma record_success_closed cfg s :
  Breaker.state (breaker s) = CircuitBreakerClosed ->
  breaker (recordResult cfg None s)
  = Breaker.mk CircuitBreakerClosed
               (if Since s (Breaker.lastFailTime (breaker s))
                   >=? CircuitBreakerConfig.ResetTimeout cfg
                then 0 else Breaker.failureCount (breaker s))
               (incr (Breaker.successCount (breaker s)))
               (Breaker.lastFailTime (breaker s)).
Proof.
  intros Hst. unfold recordResult. destruct (breaker s) as [st fc sc lt].
  cbn in *. subst st. cbn. destruct (_ >=? _); reflexivity.
Qed.

Lemma record_success_open cfg s :
  Breaker.state (breaker s) = CircuitBreakerOpen ->
  breaker (recordResult cfg None s)
  = Breaker.mk CircuitBreakerOpen (Breaker.failureCount (breaker s))
               (incr (Breaker.successCount (breaker s)))
               (Breaker.lastFailTime (breaker s)).
Proof.
  intros Hst. unfold recordResult. destruct (breaker s) as [st fc sc lt].
  cbn in *. subst st. reflexivity.
Qed.

Lemma record_success_half_open cfg s :
  Breaker.state (breaker s) = CircuitBreakerHalfOpen ->
  breaker (recordResult cfg None s)
  = if incr (Breaker.successCount (breaker s))
       >=? CircuitBreakerConfig.SuccessThreshold cfg
    then Breaker.mk CircuitBreakerClosed 0
                    (incr (Breaker.successCount (breaker s)))
                    (Breaker.lastFailTime (breaker s))
    else Breaker.mk CircuitBreakerHalfOpen (Breaker.failureCount (breaker s))
                    (incr (Breaker.successCount (breaker s)))
                    (Breaker.lastFailTime (breaker s)).
Proof.
  intros Hst. unfold recordResult. destruct (breaker s) as [st fc sc lt].
  cbn in *. subst st. cbn.
  destruct (incr sc >=? _); cbn; [destruct (_ >=? _)|]; reflexivity.
Qed.

Lemma recordAll_counted cfg lo hi obs : forall s f,
  1 <= CircuitBreakerConfig.FailureThreshold cfg ->
  hi - lo < CircuitBreakerConfig.ResetTimeout cfg ->
  hi - lo <= MaxInt64 ->
  (forall r en, In (r, en) obs -> lo <= clock en <= hi) ->
  f + failuresIn obs <= MaxInt64 ->
  counted cfg lo hi s f ->
  counted cfg lo hi (recordAll cfg obs s) (f + failuresIn obs).
Proof.
  induction obs as [|[r en] rest IH]; intros s f HT Hwin Hrange Hin Hmax Hinv.
  - simpl. rewrite Z.add_0_r. exact Hinv.
  - pose proof (failuresIn_nonneg rest) as Hfrest.
    assert (Hen : lo <= clock en <= hi) by (apply (Hin r en); now left).
    assert (Hin' : forall r' en', In (r', en') rest -> lo <= clock en' <= hi)
      by (intros r' en' H; apply (Hin r' en'); now right).
    destruct Hinv as (Hfc & Hf0 & Hst & Hlast).
    cbn [recordAll].
    assert (Hb : breaker (set_env s en) = breaker s) by reflexivity.
    destruct r as [e|]; cbn [failuresIn] in *.
    + replace (f + (1 + failuresIn rest)) with ((f + 1) + failuresIn rest) by lia.
      apply IH; try assumption; [lia|].
      unfold counted.
      destruct (Z.leb_spec (CircuitBreakerConfig.FailureThreshold cfg) f) as [Hle|Hgt].
      * rewrite record_failure_open by (rewrite Hb, Hst; discriminate).
        cbn. rewrite Hfc, incr_small by lia.
        replace (CircuitBreakerConfig.FailureThreshold cfg <=? f + 1) with true
          by (symmetry; apply Z.leb_le; lia).
        repeat split; [lia | right; exact Hen].
      * rewrite record_failure_closed by (rewrite Hb; exact Hst).
        cbn. rewrite Hfc, incr_small by lia.
        rewrite Z.geb_leb.
        repeat split; [lia | right; exact Hen].
    + apply IH; try assumption.
      unfold counted.
      destruct (Z.leb_spec (CircuitBreakerConfig.FailureThreshold cfg) f) as [Hle|Hgt].
      * rewrite record_success_open by (rewrite Hb; exact Hst).
        cbn. repeat split; assumption.
      * rewrite record_success_closed by (rewrite Hb; exact Hst).
        cbn. rewrite Hfc.
        destruct Hlast as [Hz|Hlast].
        -- subst f. destruct (_ >=? _); repeat split; try lia; now left.
        -- unfold Since, Now. cbn.
           rewrite Time_Sub_small by (unfold MinInt64, MaxInt64 in *; lia).
           rewrite geb_false by lia.
           repeat split; try assumption. now right.
Qed.

(** X6.  A closed breaker counts failures, not consecutive failures: when all
    results are recorded within a window shorter than [ResetTimeout], the
    successes in between do not reset the count, and the breaker is open
    exactly when the number of failures has reached the threshold. *)
Theorem breaker_counts_failures_within_window cfg obs s0 lo hi :
  breaker s0 = NewCircuitBreaker ->
  1 <= CircuitBreakerConfig.FailureThreshold cfg ->
  failuresIn obs <= MaxInt64 ->
  (forall r en, In (r, en) obs -> lo <= clock en <= hi) ->
  hi - lo < CircuitBreakerConfig.ResetTimeout cfg ->
  hi - lo <= MaxInt64 ->
  let s1 := recordAll cfg obs s0 in
  FailureCount s1 = failuresIn obs
  /\ State s1
     = (if CircuitBreakerConfig.FailureThreshold cfg <=? failuresIn obs
        then CircuitBreakerOpen else CircuitBreakerClosed).
Proof.
  intros Hfresh HT Hmax Hin Hwin Hrange s1.
  destruct (recordAll_counted cfg lo hi obs s0 0 HT Hwin Hrange Hin)
    as (Hfc & _ & Hst & _); [lia | |].
  - unfold counted. rewrite Hfresh. cbn.
    replace (CircuitBreakerConfig.FailureThreshold cfg <=? 0) with false
      by (symmetry; apply Z.leb_gt; lia).
    repeat split; lia.
  - split; [exact Hfc | exact Hst].
Qed.

(** X7.  Once [Timeout] has elapsed since the last failure, [Execute] on an open
    breaker moves it to half-open with a success count of zero and runs the
    unit of work once as a probe.  A probe that fails re-opens the breaker
    and restarts the timeout from that failure; a probe that succeeds counts
    one success and closes the breaker at once when [SuccessThreshold] is at
    most one. *)
Theorem open_breaker_probes_after_timeout cfg fn s :
  CircuitBreakerConfig.Enabled cfg = true ->
  State s = CircuitBreakerOpen ->
  Since s (Breaker.lastFailTime (breaker s)) >= CircuitBreakerConfig.Timeout cfg ->
  let probe :=
    set_breaker s (Breaker.mk CircuitBreakerHalfOpen (FailureCount s) 0
                              (Breaker.lastFailTime (breaker s))) in
  Execute cfg fn s
  = (fst (fn probe), recordResult cfg (fst (fn probe)) (snd (fn probe)))
  /\ (forall e s2,
        fn probe = (Some e, s2) -> breaker s2 = breaker probe ->
        let s3 := snd (Execute cfg fn s) in
        State s3 = CircuitBreakerOpen
        /\ Breaker.lastFailTime (breaker s3) = Now s2
        /\ FailureCount s3 = incr (FailureCount s))
  /\ (forall s2,
        fn probe = (None, s2) -> breaker s2 = breaker probe ->
        let s3 := snd (Execute cfg fn s) in
        SuccessCount s3 = 1
        /\ (CircuitBreakerConfig.SuccessThreshold cfg <= 1 ->
            State s3 = CircuitBreakerClosed /\ FailureCount s3 = 0)
        /\ (1 < CircuitBreakerConfig.SuccessThreshold cfg ->
            State s3 = CircuitBreakerHalfOpen
            /\ FailureCount s3 = FailureCount s)).
Proof.
  intros Hen Hst Ht probe.
  assert (Hex : Execute cfg fn s
                = (fst (fn probe),
                   recordResult cfg (fst (fn probe)) (snd (fn probe)))).
  { unfold Execute, canExecute. unfold State in Hst. rewrite Hen, Hst.
    rewrite geb_true by lia. cbn. unfold probe, FailureCount.
    destruct (fn _); reflexivity. }
  split; [exact Hex|]. split.
  - intros e s2 Hfn Hb s3. subst s3. rewrite Hex, Hfn. cbn [fst snd].
    unfold State, FailureCount.
    rewrite record_failure_open by (rewrite Hb; discriminate).
    rewrite Hb. repeat split.
  - intros s2 Hfn Hb s3. subst s3. rewrite Hex, Hfn. cbn [fst snd].
    unfold State, FailureCount, SuccessCount.
    rewrite record_success_half_open by (rewrite Hb; reflexivity).
    rewrite Hb. cbn [probe set_breaker breaker Breaker.successCount
                     Breaker.failureCount Breaker.lastFailTime].
    change (incr 0) with 1.
    destruct (Z.leb_spec (CircuitBreakerConfig.SuccessThreshold cfg) 1).
    + rewrite geb_true by lia.
      split; [reflexivity|]. split; [intros _; split; reflexivity | lia].
    + rewrite geb_false by lia.
      split; [reflexivity|]. split; [lia | intros _; split; reflexivity].
Qed.

Lemma recordAll_successes_half_open cfg envs : forall s,
  Breaker.state (breaker s) = CircuitBreakerHalfOpen ->
  0 <= Breaker.successCount (breaker s) ->
  Breaker.successCount (breaker s) + len envs
  < CircuitBreakerConfig.SuccessThreshold cfg ->
  CircuitBreakerConfig.SuccessThreshold cfg <= MaxInt64 ->
  let s' := recordAll cfg (map (fun en => (None, en)) envs) s in
  Breaker.state (breaker s') = CircuitBreakerHalfOpen
  /\ Breaker.successCount (breaker s')
     = Breaker.successCount (breaker s) + len envs
  /\ Breaker.failureCount (breaker s') = Breaker.failureCount (breaker s).
Proof.
  induction envs as [|en rest IH]; intros s Hst Hc Hlt Hmax.
  - cbn. unfold len. cbn. split; [exact Hst|]. split; [lia | reflexivity].
  - unfold len in Hlt. cbn [List.length] in Hlt.
    rewrite Nat2Z.inj_succ in Hlt.
    cbn [map recordAll].
    remember (recordResult cfg None (set_env s en)) as s1 eqn:Es1.
    assert (H1 : breaker s1
                 = Breaker.mk CircuitBreakerHalfOpen
                     (Breaker.failureCount (breaker s))
                     (Breaker.successCount (breaker s) + 1)
                     (Breaker.lastFailTime (breaker s))).
    { subst s1. rewrite record_success_half_open by exact Hst.
      cbn. rewrite incr_small by lia. rewrite geb_false by lia. reflexivity. }
    specialize (IH s1). cbv zeta in IH |- *.
    destruct IH as (Ha & Hb & Hc');
      [rewrite H1; reflexivity | rewrite H1; cbn; lia
       | rewrite H1; cbn; unfold len; lia | exact Hmax |].
    rewrite H1 in Hb, Hc'. cbn in Hb, Hc'.
    repeat split; [exact Ha | | exact Hc'].
    rewrite Hb. unfold len. cbn [List.length].
    rewrite Nat2Z.inj_succ. lia.
Qed.

(** X8.  From half-open with a success count of zero, the breaker stays
    half-open while fewer than [SuccessThreshold] successes are recorded,
    and the success that reaches the threshold closes it and resets the
    failure count. *)
Theorem half_open_closes_at_success_threshold cfg envs en s :
  State s = CircuitBreakerHalfOpen ->
  SuccessCount s = 0 ->
  1 <= CircuitBreakerConfig.SuccessThreshold cfg <= MaxInt64 ->
  len envs + 1 = CircuitBreakerConfig.SuccessThreshold cfg ->
  let before := recordAll cfg (map (fun en => (None, en)) envs) s in
  let after := recordResult cfg None (set_env before en) in
  State before = CircuitBreakerHalfOpen
  /\ FailureCount before = FailureCount s
  /\ State after = CircuitBreakerClosed
  /\ FailureCount after = 0.
Proof.
  intros Hst Hsc [Hlo Hhi] Hlen before after.
  unfold State, SuccessCount, FailureCount in *.
  destruct (recordAll_successes_half_open cfg envs s) as (Ha & Hb & Hc);
    [exact Hst | lia | lia | exact Hhi |].
  fold before in Ha, Hb, Hc.
  split; [exact Ha|]. split; [exact Hc|].
  assert (H : breaker after
              = Breaker.mk CircuitBreakerClosed 0
                           (incr (Breaker.successCount (breaker before)))
                           (Breaker.lastFailTime (breaker before))).
  { unfold after. rewrite record_success_half_open by exact Ha.
    cbn. rewrite Hb, Hsc, incr_small by lia. rewrite geb_true by lia.
    reflexivity. }
  rewrite H. split; reflexivity.
Qed.

Lemma Execute_success_keeps_closed cfg fn s :
  Breaker.state (breaker s) = CircuitBreakerClosed ->
  Breaker.failureCount (breaker s) = 0 ->
  (forall s', fst (fn s') = None /\ breaker (snd (fn s')) = breaker s') ->
  fst (Execute cfg fn s) = None
  /\ Breaker.state (breaker (snd (Execute cfg fn s))) = CircuitBreakerClosed
  /\ Breaker.failureCount (breaker (snd (Execute cfg fn s))) = 0.
Proof.
  intros Hst Hfc Hfn. destruct (Hfn s) as [He Hb].
  unfold Execute, canExecute.
  destruct (CircuitBreakerConfig.Enabled cfg); cbn.
  - rewrite Hst. cbn. destruct (fn s) as [err s2]. cbn in *. subst err.
    rewrite record_success_closed by (rewrite Hb; exact Hst).
    rewrite Hb, Hfc. cbn. repeat split. destruct (_ >=? _); reflexivity.
  - rewrite He, Hb. repeat split; assumption.
Qed.

(** X9.  On a closed breaker with a failure count of zero, any number of
    [Execute] calls whose unit of work succeeds are all admitted and leave
    the breaker closed with a failure count of zero. *)
Theorem closed_breaker_stable_under_success cfg fns : forall s,
  State s = CircuitBreakerClosed ->
  FailureCount s = 0 ->
  (forall fn, In fn fns ->
     forall s', fst (fn s') = None /\ breaker (snd (fn s')) = breaker s') ->
  fst (executeAll cfg fns s) = repeat None (List.length fns)
  /\ State (snd (executeAll cfg fns s)) = CircuitBreakerClosed
  /\ FailureCount (snd (executeAll cfg fns s)) = 0.
Proof.
  unfold State, FailureCount.
  induction fns as [|fn rest IH]; intros s Hst Hfc Hall; [repeat split; assumption|].
  cbn [executeAll].
  destruct (Execute_success_keeps_closed cfg fn s Hst Hfc) as (He & Hs1 & Hf1);
    [apply Hall; now left|].
  destruct (Execute cfg fn s) as [err s1]. cbn in He, Hs1, Hf1. subst err.
  destruct (IH s1 Hs1 Hf1) as (Ha & Hb & Hc);
    [intros fn' Hin; apply Hall; now right|].
  destruct (executeAll cfg rest s1) as [errs s2]. cbn in *.
  repeat split; [f_equal; exact Ha | exact Hb | exact Hc].
Qed.

End BreakerMachine.

(** ** The token bucket *)

Section BucketProperties.
Context {lib : GoLib} {X : Type}.
Implicit Types (cfg : RateLimitConfig.t) (ctx : Context) (email : Email.t)
         (s : Store X).

Lemma acquire_enough cfg ctx : forall n s,
  ctxDone ctx (env s) = false ->
  (n <= tokens s)%nat ->
  acquire cfg ctx n s = Ret None (set_tokens s (tokens s - n)).
Proof.
  induction n as [|n IH]; intros s Hctx Hle.
  - cbn [acquire]. rewrite Nat.sub_0_r, set_tokens_same. reflexivity.
  - cbn [acquire]. unfold selectWait. rewrite Hctx.
    destruct (tokens s) as [|t] eqn:Ht; [lia|].
    rewrite IH; [reflexivity | exact Hctx | simpl; lia].
Qed.

Lemma never_cancelled_live ctx (en : Env X) :
  cancelledAt ctx = None -> ctxDone ctx en = false.
Proof. intros H. unfold ctxDone. rewrite H. reflexivity. Qed.

(** X10.  With a live context and enough tokens, [Wait] succeeds and takes
    exactly the weight of the e-mail from the bucket, one token without
    per-recipient limiting and one per To, CC and BCC address with it. *)
Theorem Wait_takes_the_weight cfg ctx email s :
  RateLimitConfig.Enabled cfg = true ->
  ctxDone ctx (env s) = false ->
  weightOf cfg email <= Z.of_nat (tokens s) ->
  Wait cfg ctx email s
  = Ret None (set_tokens s (tokens s - Z.to_nat (weightOf cfg email))).
Proof.
  intros Hen Hctx Hw. unfold Wait. rewrite Hen. cbn [negb].
  fold (weightOf cfg email).
  apply acquire_enough; [exact Hctx | lia].
Qed.

Lemma waits_drain cfg ctx email : forall n s,
  RateLimitConfig.Enabled cfg = true ->
  RateLimitConfig.PerRecipient cfg = false ->
  cancelledAt ctx = None ->
  tokens s = n ->
  waits cfg ctx email n s = Ret (repeat None n) (set_tokens s 0).
Proof.
  induction n as [|n IH]; intros s Hen Hper Hctx Ht.
  - cbn. rewrite <- Ht, set_tokens_same. reflexivity.
  - cbn [waits]. unfold Wait. rewrite Hen, Hper. cbn [negb].
    change (Z.to_nat 1) with 1%nat.
    rewrite acquire_enough by (try apply never_cancelled_live; try lia; assumption).
    rewrite IH by (try assumption; cbn; lia).
    reflexivity.
Qed.

Lemma NewRateLimiter_Ret cfg (s s0 : Store X) :
  NewRateLimiter cfg s = Ret tt s0 ->
  0 <= RateLimitConfig.Burst cfg
  /\ newTicker cfg = None
  /\ s0 = set_tokens s (Z.to_nat (RateLimitConfig.Burst cfg)).
Proof.
  unfold NewRateLimiter, refillTokens. intros H.
  destruct (RateLimitConfig.Burst cfg <? 0) eqn:Hb; [discriminate H|].
  destruct (newTicker cfg); [discriminate H|].
  cbn in H. inversion H. apply Z.ltb_ge in Hb. auto.
Qed.

Lemma newTicker_None cfg :
  newTicker cfg = None ->
  RateLimitConfig.Rate cfg <> 0
  /\ 0 < div64 (RateLimitConfig.Period cfg) (RateLimitConfig.Rate cfg).
Proof.
  unfold newTicker.
  destruct (Z.eqb_spec (RateLimitConfig.Rate cfg) 0); [discriminate|].
  destruct (Z.leb_spec (div64 (RateLimitConfig.Period cfg)
                              (RateLimitConfig.Rate cfg)) 0);
    [discriminate|]. auto.
Qed.

(** X11.  A new limiter lets exactly [Burst] calls through: once
    [NewRateLimiter] has returned and its goroutine has its ticker (the
    rate is not zero and [Period / Rate] is positive), [Burst] successive
    [Wait] calls of weight one succeed and empty the bucket, the next one is
    refused with the rate-limited failure, and after the first tick of the
    goroutine one more call succeeds. *)
Theorem burst_then_refusal_then_refill cfg ctx email s s0 :
  RateLimitConfig.Enabled cfg = true ->
  RateLimitConfig.PerRecipient cfg = false ->
  cancelledAt ctx = None ->
  NewRateLimiter cfg s = Ret tt s0 ->
  (RateLimitConfig.Rate cfg <> 0
   /\ 0 < div64 (RateLimitConfig.Period cfg) (RateLimitConfig.Rate cfg))
  /\ waits cfg ctx email (Z.to_nat (RateLimitConfig.Burst cfg)) s0
     = Ret (repeat None (Z.to_nat (RateLimitConfig.Burst cfg)))
           (set_tokens s 0)
  /\ Wait cfg ctx email (set_tokens s 0)
     = Ret (Some (rateLimited cfg)) (set_tokens s 0)
  /\ (1 <= RateLimitConfig.Burst cfg ->
      refillTokens cfg 1 (set_tokens s 0) = Ret tt (set_tokens s 1)
      /\ Wait cfg ctx email (set_tokens s 1) = Ret None (set_tokens s 0)).
Proof.
  intros Hen Hper Hctx Hnew.
  destruct (NewRateLimiter_Ret cfg s s0 Hnew) as (Hb & Htick & ->).
  destruct (newTicker_None cfg Htick) as (Hrate & Hint).
  split; [split; assumption|]. split; [|split].
  - rewrite waits_drain by (try assumption; reflexivity). reflexivity.
  - unfold Wait. rewrite Hen, Hper. cbn [negb].
    change (Z.to_nat 1) with 1%nat.
    rewrite acquire_short by (try apply never_cancelled_live; cbn; try lia; assumption).
    reflexivity.
  - intros Hb1. split.
    + unfold refillTokens. rewrite Htick. cbn [Nat.iter nat_rect].
      unfold refillTick. cbn [tokens set_tokens].
      replace (Z.of_nat 0 <? RateLimitConfig.Burst cfg) with true
        by (symmetry; apply Z.ltb_lt; lia).
      reflexivity.
    + unfold Wait. rewrite Hen, Hper. cbn [negb].
      change (Z.to_nat 1) with 1%nat.
      rewrite acquire_enough by (try apply never_cancelled_live; cbn; try lia; assumption).
      reflexivity.
Qed.

Lemma acquire_tokens_le cfg ctx : forall n s r s',
  acquire cfg ctx n s = Ret r s' -> (tokens s' <= tokens s)%nat.
Proof.
  induction n as [|n IH]; intros s r s' H.
  - cbn in H. inversion H; subst. lia.
  - cbn [acquire] in H. unfold selectWait in H.
    destruct (ctxDone ctx (env s)); destruct (tokens s) as [|t] eqn:Ht.
    + inversion H; subst. lia.
    + destruct (flip (env s)) as [[|] e'].
      * inversion H; subst. cbn. lia.
      * apply IH in H. cbn in H. lia.
    + destruct (RateLimitConfig.Rate cfg =? 0); [discriminate H|].
      inversion H; subst. lia.
    + apply IH in H. cbn in H. lia.
Qed.

Lemma Wait_tokens_le cfg ctx email s r s' :
  Wait cfg ctx email s = Ret r s' -> (tokens s' <= tokens s)%nat.
Proof.
  unfold Wait. destruct (negb (RateLimitConfig.Enabled cfg)).
  - intros H. inversion H; subst. lia.
  - apply acquire_tokens_le.
Qed.

(** X12.  The bucket never holds more than [Burst] tokens: from [NewRateLimiter]
    on, through any history of refill ticks and [Wait] calls, whatever
    their contexts and e-mails. *)
Theorem bucket_never_exceeds_burst cfg ops s s0 s' :
  NewRateLimiter cfg s = Ret tt s0 ->
  runLimiter cfg ops s0 = Ret tt s' ->
  Z.of_nat (tokens s') <= RateLimitConfig.Burst cfg.
Proof.
  intros Hnew.
  destruct (NewRateLimiter_Ret cfg s s0 Hnew) as (Hb & _ & ->). clear Hnew.
  assert (H0 : Z.of_nat (tokens (set_tokens s (Z.to_nat (RateLimitConfig.Burst cfg))))
               <= RateLimitConfig.Burst cfg) by (cbn; lia).
  revert H0. generalize (set_tokens s (Z.to_nat (RateLimitConfig.Burst cfg))).
  induction ops as [|op rest IH]; intros s1 H1 Hrun.
  - cbn in Hrun. inversion Hrun; subst. exact H1.
  - destruct op as [|ctx email]; cbn [runLimiter] in Hrun.
    + destruct (newTicker cfg); [discriminate Hrun|].
      apply (IH (refillTick cfg s1)); [|exact Hrun].
      unfold refillTick.
      destruct (Z.ltb_spec (Z.of_nat (tokens s1)) (RateLimitConfig.Burst cfg));
        cbn; lia.
    + destruct (Wait cfg ctx email s1) as [r s2|] eqn:HW; [|discriminate Hrun].
      apply Wait_tokens_le in HW.
      apply (IH s2); [lia | exact Hrun].
Qed.

(** X13.  A cancelled context wins over an empty bucket: [Wait] for at least one
    token then returns the context's error, not the rate-limited failure,
    and the store is untouched. *)
Theorem Wait_cancelled_on_empty_bucket cfg ctx email s :
  RateLimitConfig.Enabled cfg = true ->
  ctxDone ctx (env s) = true ->
  tokens s = 0%nat ->
  1 <= weightOf cfg email ->
  Wait cfg ctx email s = Ret (Some (cause ctx)) s.
Proof.
  intros Hen Hctx Ht Hw. unfold Wait. rewrite Hen. cbn [negb].
  unfold weightOf in Hw.
  destruct (Z.to_nat _) as [|n] eqn:Hn; [lia|].
  cbn [acquire]. unfold selectWait. rewrite Hctx, Ht. reflexivity.
Qed.

Lemma acquire_short_zero_rate cfg ctx : forall n s,
  ctxDone ctx (env s) = false ->
  RateLimitConfig.Rate cfg = 0 ->
  (tokens s < n)%nat ->
  acquire cfg ctx n s = Panic "runtime error: integer divide by zero".
Proof.
  induction n as [|n IH]; intros s Hctx Hrate Hlt; [lia|].
  cbn [acquire]. unfold selectWait. rewrite Hctx.
  destruct (tokens s) as [|t] eqn:Ht.
  - rewrite Hrate. reflexivity.
  - rewrite IH; [reflexivity | exact Hctx | exact Hrate | simpl; lia].
Qed.

(** X14.  An enabled limiter with a rate of zero cannot report a shortage: the
    retry-after [Period / Rate] is a division by zero and [Wait] panics. *)
Theorem Wait_zero_rate_panics_on_shortage cfg ctx email s :
  RateLimitConfig.Enabled cfg = true ->
  RateLimitConfig.Rate cfg = 0 ->
  ctxDone ctx (env s) = false ->
  weightOf cfg email > Z.of_nat (tokens s) ->
  Wait cfg ctx email s = Panic "runtime error: integer divide by zero".
Proof.
  intros Hen Hrate Hctx Hw. unfold Wait. rewrite Hen. cbn [negb].
  apply acquire_short_zero_rate; [exact Hctx | exact Hrate |].
  unfold weightOf in Hw. lia.
Qed.

End BucketProperties.

(** ** The retry loop *)

Section RetryProperties.
Context {lib : GoLib} {X : Type}.
Implicit Types (cfg : RetryConfig.t) (ctx : Context) (s : Store X)
         (fn : @Work X).

Lemma calculateDelay_world cfg attempt s :
  ext (env (snd (calculateDelay cfg attempt s))) = ext (env s)
  /\ clock (env (snd (calculateDelay cfg attempt s))) = clock (env s).
Proof.
  unfold calculateDelay.
  destruct (RetryConfig.Jitter cfg); [|split; reflexivity].
  match goal with |- context [if ?b then _ else _] => destruct b end;
    [|split; reflexivity].
  unfold randInt. destruct (entropy (env s)); split; reflexivity.
Qed.

Lemma awaitDelay_never_cancelled ctx delay s :
  cancelledAt ctx = None ->
  awaitDelay ctx delay s
  = (None, set_env s (set_clock (env s) (clock (env s) + Z.max 0 delay))).
Proof. intros H. unfold awaitDelay. rewrite H. reflexivity. Qed.

(** With a context that is never cancelled and a unit of work that always
    fails retryably, the loop invokes it once per remaining attempt and
    returns a retryable failure.  [m] counts the invocations in the
    provider's world. *)
Lemma retryLoop_exhausts cfg ctx fn (m : X -> nat) :
  cancelledAt ctx = None ->
  (forall s, exists e s',
      fn s = (Some e, s') /\ IsRetryable (Some e) = true
      /\ m (ext (env s')) = S (m (ext (env s)))) ->
  forall n attempt lastErr s,
    (1 <= n)%nat ->
    attempt + Z.of_nat n = RetryConfig.MaxAttempts cfg + 1 ->
    exists e s',
      retryLoop cfg ctx fn n attempt lastErr s = (Some e, s')
      /\ IsRetryable (Some e) = true
      /\ m (ext (env s')) = (m (ext (env s)) + n)%nat.
Proof.
  intros Hctx Hfn. induction n as [|n IH]; intros attempt lastErr s Hn Hsum;
    [lia|].
  cbn [retryLoop]. destruct (Hfn s) as (e & s1 & Hf & Hr & Hm).
  rewrite Hf, Hr. cbn [negb].
  destruct (Z.eqb_spec attempt (RetryConfig.MaxAttempts cfg)) as [Heq|Hneq].
  - exists e, s1. repeat split; [exact Hr|]. rewrite Hm.
    assert (n = 0%nat) by lia. subst n. lia.
  - destruct (calculateDelay_world cfg attempt s1) as [Hext _].
    destruct (calculateDelay cfg attempt s1) as [d s2]. cbn [snd] in Hext.
    rewrite awaitDelay_never_cancelled by exact Hctx.
    destruct (IH (attempt + 1) (Some e)
                 (set_env s2 (set_clock (env s2)
                    (clock (env s2)
                     + Z.max 0 (if GetRetryAfter (Some e) >? 0
                                then GetRetryAfter (Some e) else d)))))
      as (e' & s' & Hl & Hr' & Hm'); [lia | lia |].
    exists e', s'. repeat split; [exact Hl | exact Hr' |].
    rewrite Hm'. cbn. rewrite Hext, Hm. lia.
Qed.

(** X15.  An enabled retry manager with [MaxAttempts] below one makes no attempt
    and returns [nil].  In [Send], such a manager turns a retryable failure
    of the guarded call into a reported success. *)
Theorem Retry_without_attempts_reports_success cfg ctx fn :
  RetryConfig.Enabled cfg = true ->
  RetryConfig.MaxAttempts cfg <= 0 ->
  (forall s, Retry cfg ctx fn s = (None, s))
  /\ (forall (c : Client.t X) email s e s1,
        Client.retryManager c = Some cfg ->
        guarded c ctx email s = (Some e, s1) ->
        IsRetryable (Some e) = true ->
        dispatch c ctx email s = Ret None s1).
Proof.
  intros Hen Hmax.
  assert (H : forall fn' s, Retry cfg ctx fn' s = (None, s)).
  { intros fn' s. unfold Retry. rewrite Hen. cbn [negb].
    replace (Z.to_nat (RetryConfig.MaxAttempts cfg)) with 0%nat by lia.
    reflexivity. }
  split; [apply H|].
  intros c email s e s1 Hrm Hg Hr. unfold dispatch.
  rewrite Hg, Hrm, Hr, H. reflexivity.
Qed.

(** X16.  With retries enabled, [MaxAttempts >= 1] and a context that is never
    cancelled, a unit of work that always fails retryably is invoked exactly
    [MaxAttempts] times, and [Retry] returns a retryable failure. *)
Theorem Retry_makes_exactly_MaxAttempts_attempts cfg ctx fn (m : X -> nat) s :
  RetryConfig.Enabled cfg = true ->
  1 <= RetryConfig.MaxAttempts cfg ->
  cancelledAt ctx = None ->
  (forall s, exists e s',
      fn s = (Some e, s') /\ IsRetryable (Some e) = true
      /\ m (ext (env s')) = S (m (ext (env s)))) ->
  exists e s',
    Retry cfg ctx fn s = (Some e, s')
    /\ IsRetryable (Some e) = true
    /\ m (ext (env s'))
       = (m (ext (env s)) + Z.to_nat (RetryConfig.MaxAttempts cfg))%nat.
Proof.
  intros Hen Hmax Hctx Hfn. unfold Retry. rewrite Hen. cbn [negb].
  apply (retryLoop_exhausts cfg ctx fn m Hctx Hfn); lia.
Qed.

(** X17.  When the context is cancelled before the delay that follows a retryable
    failure has elapsed, [Retry] returns the context's error after that
    single invocation, at the instant of the cancellation (or at once if it
    is already past). *)
Theorem Retry_stops_on_cancellation cfg ctx fn s e s1 t :
  RetryConfig.Enabled cfg = true ->
  2 <= RetryConfig.MaxAttempts cfg ->
  fn s = (Some e, s1) ->
  IsRetryable (Some e) = true ->
  cancelledAt ctx = Some t ->
  let (delay, s2) := effectiveDelay cfg 1 (Some e) s1 in
  Z.max (clock (env s2)) t < clock (env s2) + Z.max 0 delay ->
  Retry cfg ctx fn s
  = (Some (cause ctx),
     set_env s2 (set_clock (env s2) (Z.max (clock (env s2)) t))).
Proof.
  intros Hen Hmax Hf Hr Hctx. unfold effectiveDelay.
  destruct (calculateDelay cfg 1 s1) as [d s2] eqn:Hd.
  intros Hlt. unfold Retry. rewrite Hen. cbn [negb].
  destruct (Z.to_nat (RetryConfig.MaxAttempts cfg)) as [|n] eqn:Hn; [lia|].
  cbn [retryLoop]. rewrite Hf, Hr. cbn [negb].
  replace (1 =? RetryConfig.MaxAttempts cfg) with false
    by (symmetry; apply Z.eqb_neq; lia).
  rewrite Hd. unfold awaitDelay. rewrite Hctx.
  replace (_ <? _) with true by (symmetry; apply Z.ltb_lt; exact Hlt).
  reflexivity.
Qed.

(** X18.  A positive retry-after carried by the failure replaces the computed
    backoff: with two attempts and a context that is never cancelled, the
    second invocation runs exactly that long after the first, whatever
    [InitialDelay], [Multiplier] and [MaxDelay] are, and its result is the
    result of [Retry]. *)
Theorem Retry_honours_retry_after cfg ctx fn s e s1 :
  RetryConfig.Enabled cfg = true ->
  RetryConfig.MaxAttempts cfg = 2 ->
  cancelledAt ctx = None ->
  fn s = (Some e, s1) ->
  IsRetryable (Some e) = true ->
  0 < GetRetryAfter (Some e) ->
  let s2 := snd (calculateDelay cfg 1 s1) in
  Retry cfg ctx fn s
  = fn (set_env s2 (set_clock (env s2)
                      (clock (env s1) + GetRetryAfter (Some e)))).
Proof.
  intros Hen Hmax Hctx Hf Hr Hra s2. unfold Retry. rewrite Hen, Hmax.
  cbn [negb]. change (Z.to_nat 2) with 2%nat.
  cbn [retryLoop]. rewrite Hf, Hr, Hmax. cbn [negb].
  change (1 =? 2) with false. cbv iota.
  destruct (calculateDelay_world cfg 1 s1) as [_ Hclk].
  subst s2. destruct (calculateDelay cfg 1 s1) as [d s2]. cbn [snd] in *.
  rewrite awaitDelay_never_cancelled by exact Hctx.
  replace (GetRetryAfter (Some e) >? 0) with true
    by (symmetry; apply Z.gtb_lt; exact Hra).
  rewrite Z.max_r by lia. rewrite Hclk.
  clear Hf.
  match goal with
  | |- context [fn ?a] => destruct (fn a) as [[e2|] s3]
  end; [|reflexivity].
  change (1 + 1 =? 2) with true.
  destruct (negb (IsRetryable (Some e2))); reflexivity.
Qed.

(** X19.  Jitter only adds: the delay is at least the capped product and exceeds
    it by less than its tenth (so it may pass [MaxDelay]); without jitter,
    or when that tenth is not positive, it is the capped product itself. *)
Theorem calculateDelay_jitter_bounds cfg attempt s :
  let base :=
    Z.min (backoffProduct (RetryConfig.InitialDelay cfg)
                          (RetryConfig.Multiplier cfg) (attempt - 1))
          (RetryConfig.MaxDelay cfg) in
  MinInt64 <= base ->
  base + tenthOf base <= MaxInt64 ->
  let d := fst (calculateDelay cfg attempt s) in
  base <= d < base + Z.max 1 (tenthOf base)
  /\ (RetryConfig.Jitter cfg = false \/ tenthOf base <= 0 -> d = base).
Proof.
  intros base Hlo Hhi d. subst d. unfold calculateDelay.
  set (p := backoffProduct _ _ _) in *.
  assert (Hb : (if p >? RetryConfig.MaxDelay cfg
                then RetryConfig.MaxDelay cfg else p) = base).
  { subst base. destruct (Z.gtb_spec p (RetryConfig.MaxDelay cfg)); lia. }
  rewrite Hb.
  destruct (RetryConfig.Jitter cfg); [|cbn; split; [lia | reflexivity]].
  destruct (Z.gtb_spec (tenthOf base) 0) as [Hpos|Hnp];
    [|cbn; split; [lia | reflexivity]].
  unfold randInt. destruct (entropy (env s)) as [|z rest];
    [cbn; split; [lia | intros [H|H]; [discriminate H | lia]]|].
  cbn [fst].
  pose proof (Z.mod_pos_bound z (tenthOf base) Hpos) as Hj.
  assert (Hw : wrap64 (base + z mod tenthOf base) = base + z mod tenthOf base).
  { unfold wrap64. unfold MinInt64, MaxInt64 in *.
    rewrite Z.mod_small; lia. }
  rewrite Hw. split; [lia | intros [H|H]; [discriminate H | lia]].
Qed.

End RetryProperties.

(** ** The client *)

Section ClientProperties.
Context {lib : GoLib} {X : Type}.
Implicit Types (c : Client.t X) (ctx : Context) (email : Email.t)
         (emails : list Email.t) (s : Store X).

(** X20.  After [Close], whatever it returned, [Send], [SendBatch] and
    [SendTemplate] return [ErrClientClosed] and leave the store as it is,
    for every input: no provider, limiter, breaker or template engine is
    reached, and an e-mail without recipients does not panic. *)
Theorem closed_client_refuses_every_call c ctx email emails s0 :
  let s := snd (Close c s0) in
  Send c ctx email s = Ret (Some ErrClientClosed) s
  /\ SendBatch c ctx emails s = Ret (Some ErrClientClosed) s
  /\ (forall (D V : Type) render sprint (req : TemplateRequest.t D V),
        SendTemplate render sprint c ctx req s
        = Ret (Some ErrClientClosed) s).
Proof.
  intros s. pose proof (Close_sets_closed c s0) as Hc. fold s in Hc.
  unfold Send, SendBatch. rewrite Hc. repeat split.
  intros D V render sprint req. unfold SendTemplate. rewrite Hc. reflexivity.
Qed.

(** X21.  On an open client, an e-mail with a recipient that fails [Validate] is
    refused with that very error and the store untouched: no token is
    taken and no provider is called, and the error is not retryable. *)
Theorem Send_refuses_invalid_email c ctx email s v :
  closed s = false ->
  Email.To email <> [] ->
  Validate email = Some v ->
  Send c ctx email s = Ret (Some v) s /\ IsRetryable (Some v) = false.
Proof.
  intros Hopen Hto Hv. split.
  - unfold Send. rewrite Hopen, Hv. destruct (Email.To email); [congruence|].
    reflexivity.
  - unfold Validate in Hv.
    repeat match type of Hv with
           | (if ?b then _ else _) = _ => destruct b
           | match ?x with _ => _ end = _ => destruct x
           end; inversion Hv; reflexivity.
Qed.

Lemma sendFn_fallback_success c ctx email s fb r1 e1 en1 r2 en2 :
  Client.fallback c = Some fb ->
  Provider.Send (Client.provider c) ctx email (env s) = ((r1, Some e1), en1) ->
  IsRetryable (Some e1) = true ->
  Provider.Send fb ctx email en1 = ((r2, None), en2) ->
  sendFn c ctx email s = (None, set_env s en2).
Proof.
  intros Hfb H1 Hr H2. unfold sendFn, sendWithProvider.
  rewrite H1, Hfb, Hr. cbn. rewrite H2. reflexivity.
Qed.

(** X22.  When the primary provider fails retryably and the fallback provider
    then accepts the message, [Send] returns [nil] after exactly those two
    calls, and a closed circuit breaker records a success: failures of the
    primary that the fallback makes up for are never counted. *)
Theorem fallback_success_hides_primary_failure
        c ctx email s s0 fb r1 e1 en1 r2 en2 :
  closed s = false ->
  Validate email = None ->
  admitted c ctx email s s0 ->
  Client.fallback c = Some fb ->
  Provider.Send (Client.provider c) ctx email (env s0) = ((r1, Some e1), en1) ->
  IsRetryable (Some e1) = true ->
  Provider.Send fb ctx email en1 = ((r2, None), en2) ->
  match Client.circuitBreaker c with
  | None => Send c ctx email s = Ret None (set_env s0 en2)
  | Some cb =>
      CircuitBreakerConfig.Enabled cb = true ->
      State s0 = CircuitBreakerClosed ->
      let s' := recordResult cb None (set_env s0 en2) in
      Send c ctx email s = Ret None s'
      /\ State s' = CircuitBreakerClosed
      /\ (FailureCount s' = FailureCount s0 \/ FailureCount s' = 0)
  end.
Proof.
  intros Hopen Hv Hadm Hfb H1 Hr H2.
  pose proof (sendFn_fallback_success c ctx email s0 fb r1 e1 en1 r2 en2
                                      Hfb H1 Hr H2) as Hfn.
  rewrite (Send_reaches_dispatch c ctx email s s0 Hopen Hv Hadm).
  unfold dispatch, guarded.
  destruct (Client.circuitBreaker c) as [cb|].
  - intros Hen Hst. cbv zeta. unfold State in Hst.
    rewrite (Execute_closed_records cb _ s0 Hen Hst), Hfn. cbn [fst snd].
    split; [reflexivity|]. unfold State, FailureCount.
    rewrite record_success_closed by exact Hst. cbn.
    split; [reflexivity|]. destruct (_ >=? _); [now right | now left].
  - rewrite Hfn. reflexivity.
Qed.

(** X23.  Without a circuit breaker, a failure of the primary provider that is
    not retryable ends the call: [Send] returns it after that single
    provider call, whether or not a fallback provider and a retry manager
    are configured. *)
Theorem non_retryable_failure_ends_Send c ctx email s s0 r e en1 :
  closed s = false ->
  Validate email = None ->
  admitted c ctx email s s0 ->
  Client.circuitBreaker c = None ->
  Provider.Send (Client.provider c) ctx email (env s0) = ((r, Some e), en1) ->
  IsRetryable (Some e) = false ->
  Send c ctx email s = Ret (Some e) (set_env s0 en1).
Proof.
  intros Hopen Hv Hadm Hcb H1 Hr.
  rewrite (Send_reaches_dispatch c ctx email s s0 Hopen Hv Hadm).
  apply dispatch_not_retryable; [|exact Hr].
  unfold guarded, sendFn, sendWithProvider. rewrite Hcb, H1, Hr.
  destruct (Client.fallback c); reflexivity.
Qed.

(** X24.  With retries enabled, no fallback, no breaker and a context that is
    never cancelled, a primary provider that always fails retryably is
    called [1 + MaxAttempts] times by one [Send]: once before the retry
    manager takes over and [MaxAttempts] times by it. *)
Theorem Send_calls_provider_once_more_than_MaxAttempts
        c ctx email s s0 rm (m : X -> nat) :
  closed s = false ->
  Validate email = None ->
  admitted c ctx email s s0 ->
  Client.circuitBreaker c = None ->
  Client.fallback c = None ->
  Client.retryManager c = Some rm ->
  RetryConfig.Enabled rm = true ->
  1 <= RetryConfig.MaxAttempts rm ->
  cancelledAt ctx = None ->
  (forall en, exists r e en',
      Provider.Send (Client.provider c) ctx email en = ((r, Some e), en')
      /\ IsRetryable (Some e) = true
      /\ m (ext en') = S (m (ext en))) ->
  exists e s',
    Send c ctx email s = Ret (Some e) s'
    /\ IsRetryable (Some e) = true
    /\ m (ext (env s'))
       = (m (ext (env s0)) + 1 + Z.to_nat (RetryConfig.MaxAttempts rm))%nat.
Proof.
  intros Hopen Hv Hadm Hcb Hfb Hrm Hen Hmax Hctx Hp.
  assert (Hfn : forall s1, exists e s',
             sendFn c ctx email s1 = (Some e, s')
             /\ IsRetryable (Some e) = true
             /\ m (ext (env s')) = S (m (ext (env s1)))).
  { intros s1. destruct (Hp (env s1)) as (r & e & en' & H1 & Hr & Hm).
    exists e, (set_env s1 en'). unfold sendFn, sendWithProvider.
    rewrite H1, Hfb. repeat split; assumption. }
  rewrite (Send_reaches_dispatch c ctx email s s0 Hopen Hv Hadm).
  unfold dispatch, guarded. rewrite Hcb.
  destruct (Hfn s0) as (e1 & s1 & H1 & Hr1 & Hm1).
  rewrite H1, Hrm, Hr1. unfold Retry. rewrite Hen. cbn [negb].
  destruct (retryLoop_exhausts rm ctx (sendFn c ctx email) m Hctx Hfn
              (Z.to_nat (RetryConfig.MaxAttempts rm)) 1 None s1)
    as (e2 & s2 & H2 & Hr2 & Hm2); [lia | lia |].
  rewrite H2. exists e2, s2. repeat split; [exact Hr2|].
  rewrite Hm2, Hm1. lia.
Qed.

Lemma validateAll_None emails : forall i,
  (forall email, In email emails -> Validate email = None) ->
  validateAll i emails = None.
Proof.
  induction emails as [|a rest IH]; intros i H; [reflexivity|].
  cbn [validateAll]. rewrite (H a) by now left.
  apply IH. intros email Hin. apply H. now right.
Qed.

Lemma len_nonempty {A : Type} (l : list A) : l <> [] -> (len l =? 0) = false.
Proof.
  intros H. destruct l; [congruence|]. unfold len. cbn [List.length].
  apply Z.eqb_neq. lia.
Qed.

(** X25.  When the provider's batch call returns a result without error,
    [SendBatch] on valid e-mails never looks at the fallback: it returns
    [nil] if the result lists no failure, and otherwise a [BatchError]
    whose total is the number of e-mails, whose failed count is the number
    of listed failures, and whose items are the provider's indices and
    errors in the provider's order.  A provider that answers with neither
    result nor error makes it panic. *)
Theorem SendBatch_relays_provider_result c ctx emails s en1 :
  closed s = false ->
  emails <> [] ->
  (forall email, In email emails -> Validate email = None) ->
  (forall br,
      Provider.SendBatch (Client.provider c) ctx emails (env s)
      = ((Some br, None), en1) ->
      SendBatch c ctx emails s
      = Ret (match BatchResult.Failed br with
             | [] => None
             | _ :: _ =>
                 Some (EBatch (Itoa (len (BatchResult.Failed br)) ++ "/"
                               ++ Itoa (len emails) ++ " emails failed")
                              (itemErrors (BatchResult.Failed br))
                              (len emails) (len (BatchResult.Failed br)))
             end) (set_env s en1))
  /\ (Provider.SendBatch (Client.provider c) ctx emails (env s)
      = ((None, None), en1) ->
      SendBatch c ctx emails s
      = Panic "runtime error: invalid memory address or nil pointer dereference").
Proof.
  intros Hopen Hne Hvalid. split.
  - intros br Hb. unfold SendBatch, sendBatchWithProvider.
    rewrite Hopen, (len_nonempty emails Hne), (validateAll_None emails 0 Hvalid), Hb.
    destruct (BatchResult.Failed br) as [|f rest] eqn:Hf; [reflexivity|].
    replace (len (f :: rest) >? 0) with true; [reflexivity|].
    symmetry. apply Z.gtb_lt. unfold len. cbn [List.length]. lia.
  - intros Hb. unfold SendBatch, sendBatchWithProvider.
    rewrite Hopen, (len_nonempty emails Hne), (validateAll_None emails 0 Hvalid), Hb.
    reflexivity.
Qed.

End ClientProperties.

(** ** Batches sent one by one *)

Section OneByOne.
Context {lib : GoLib} {X : Type}.
Implicit Types (c : Client.t X) (ctx : Context) (emails : list Email.t)
         (s : Store X).



End OneByOne.

(** ** The providers' batch loop *)

Section BatchLoop.
Context {X : Type}.
Implicit Types (p : Builtin.t X) (ctx : Context) (emails : list Email.t).

Lemma batchSends_shape p ctx : forall emails i succ failed en succ' failed' en',
  batchSends p ctx i emails succ failed en = ((succ', failed'), en') ->
  exists sa fa,
    succ' = (succ ++ sa)%list
    /\ failed' = (failed ++ fa)%list
    /\ len sa + len fa = len emails
    /\ increasingWithin i (i + len emails) (map BatchFailure.Index fa)
    /\ Forall (listsFailedEmail i emails) fa.
Proof.
  induction emails as [|email rest IH];
    intros i succ failed en succ' failed' en' H.
  - cbn in H. inversion H; subst. exists [], []. rewrite !app_nil_r.
    unfold len, increasingWithin. cbn. repeat split; constructor.
  - cbn [batchSends] in H.
    assert (Hlen : len (email :: rest) = 1 + len rest)
      by (unfold len; cbn [List.length]; lia).
    rewrite Hlen.
    destruct (Builtin.send p ctx email en) as [[r|err] en1].
    + apply IH in H.
      destruct H as (sa & fa & Hs & Hf & Hsum & [Hsorted Hin] & Hrec).
      exists (r :: sa), fa.
      split; [rewrite Hs, <- app_assoc; reflexivity|].
      split; [exact Hf|].
      split; [unfold len in *; cbn [List.length]; lia|]. split; [split|].
      * exact Hsorted.
      * eapply Forall_impl; [|exact Hin]. intros k Hk; cbv beta in *; lia.
      * rewrite Forall_forall in Hrec, Hin |- *. intros f Hf'.
        destruct (Hrec f Hf') as [Hnth Hne].
        assert (Hk : i + 1 <= BatchFailure.Index f)
          by (apply Hin, in_map, Hf').
        split; [|exact Hne]. unfold listsFailedEmail in *.
        replace (Z.to_nat (BatchFailure.Index f - i))
          with (S (Z.to_nat (BatchFailure.Index f - (i + 1)))) by lia.
        exact Hnth.
    + apply IH in H.
      destruct H as (sa & fa & Hs & Hf & Hsum & [Hsorted Hin] & Hrec).
      exists sa, (BatchFailure.mk i email (Some err) :: fa).
      split; [exact Hs|].
      split; [rewrite Hf, <- app_assoc; reflexivity|].
      split; [unfold len in *; cbn [List.length]; lia|]. split; [split|].
      * cbn [map BatchFailure.Index]. constructor; [exact Hsorted|].
        eapply Forall_impl; [|exact Hin]. intros k Hk; cbv beta in *; lia.
      * cbn [map BatchFailure.Index]. constructor; [unfold len; lia|].
        eapply Forall_impl; [|exact Hin]. intros k Hk; cbv beta in *; lia.
      * constructor.
        -- unfold listsFailedEmail. cbn.
           replace (Z.to_nat (i - i)) with 0%nat by lia.
           split; [reflexivity | discriminate].
        -- rewrite Forall_forall in Hrec, Hin |- *. intros f Hf'.
           destruct (Hrec f Hf') as [Hnth Hne].
           assert (Hk : i + 1 <= BatchFailure.Index f)
             by (apply Hin, in_map, Hf').
           split; [|exact Hne]. unfold listsFailedEmail in *.
           replace (Z.to_nat (BatchFailure.Index f - i))
             with (S (Z.to_nat (BatchFailure.Index f - (i + 1)))) by lia.
           exact Hnth.
Qed.

Lemma Builtin_Send_on_recipient p ctx email en :
  Builtin.readsFirstTo p = false \/ hasRecipient email ->
  Builtin_Send p ctx email en = Builtin.Returns (Builtin.send p ctx email en).
Proof.
  unfold Builtin_Send, hasRecipient. intros [H|H].
  - rewrite H. reflexivity.
  - destruct (Builtin.readsFirstTo p); [|reflexivity].
    destruct (Email.To email); [contradiction|reflexivity].
Qed.

Lemma batchLoop_on_recipients p ctx : forall emails i succ failed en,
  Builtin.readsFirstTo p = false \/ Forall hasRecipient emails ->
  batchLoop p ctx i emails succ failed en
  = Builtin.Returns (batchSends p ctx i emails succ failed en).
Proof.
  induction emails as [|email rest IH]; intros i succ failed en H;
    [reflexivity|].
  cbn [batchLoop batchSends].
  rewrite Builtin_Send_on_recipient
    by (destruct H as [H|H]; [left; exact H | right; inversion H; assumption]).
  assert (H' : Builtin.readsFirstTo p = false \/ Forall hasRecipient rest)
    by (destruct H as [H|H]; [left; exact H | right; inversion H; assumption]).
  destruct (Builtin.send p ctx email en) as [[r|err] en1]; apply IH; exact H'.
Qed.

Lemma batchLoop_outcome p ctx : forall emails i succ failed en,
  match batchLoop p ctx i emails succ failed en with
  | Builtin.Panics reason =>
      Builtin.readsFirstTo p = true
      /\ reason = "runtime error: index out of range [0] with length 0"
      /\ exists email, In email emails /\ Email.To email = []
  | Builtin.Returns x =>
      x = batchSends p ctx i emails succ failed en
      /\ (Builtin.readsFirstTo p = true -> Forall hasRecipient emails)
  end.
Proof.
  induction emails as [|email rest IH]; intros i succ failed en.
  - cbn. split; [reflexivity | constructor].
  - cbn [batchLoop batchSends]. unfold Builtin_Send.
    destruct (Builtin.readsFirstTo p) eqn:Hr.
    + destruct (Email.To email) as [|a to] eqn:Hto.
      * split; [reflexivity|]. split; [reflexivity|].
        exists email. split; [left; reflexivity | exact Hto].
      * destruct (Builtin.send p ctx email en) as [[r|err] en1].
        -- specialize (IH (i + 1) (succ ++ [r])%list failed en1).
           destruct (batchLoop p ctx (i + 1) rest (succ ++ [r]) failed en1).
           ++ destruct IH as [Hx Hall]. split; [exact Hx|]. intros _.
              constructor; [unfold hasRecipient; rewrite Hto; discriminate|].
              apply Hall. reflexivity.
           ++ destruct IH as (H1 & H2 & email' & Hin & Hno).
              split; [exact H1|]. split; [exact H2|].
              exists email'. split; [right; exact Hin | exact Hno].
        -- specialize (IH (i + 1) succ
                          (failed ++ [BatchFailure.mk i email (Some err)])%list
                          en1).
           destruct (batchLoop p ctx (i + 1) rest succ
                               (failed ++ [BatchFailure.mk i email (Some err)])
                               en1).
           ++ destruct IH as [Hx Hall]. split; [exact Hx|]. intros _.
              constructor; [unfold hasRecipient; rewrite Hto; discriminate|].
              apply Hall. reflexivity.
           ++ destruct IH as (H1 & H2 & email' & Hin & Hno).
              split; [exact H1|]. split; [exact H2|].
              exists email'. split; [right; exact Hin | exact Hno].
    + cbv iota.
      destruct (Builtin.send p ctx email en) as [[r|err] en1].
      * specialize (IH (i + 1) (succ ++ [r])%list failed en1).
        destruct (batchLoop p ctx (i + 1) rest (succ ++ [r]) failed en1).
        -- destruct IH as [Hx _]. split; [exact Hx | discriminate].
        -- destruct IH as (H1 & _). discriminate H1.
      * specialize (IH (i + 1) succ
                       (failed ++ [BatchFailure.mk i email (Some err)])%list
                       en1).
        destruct (batchLoop p ctx (i + 1) rest succ
                            (failed ++ [BatchFailure.mk i email (Some err)])
                            en1).
        -- destruct IH as [Hx _]. split; [exact Hx | discriminate].
        -- destruct IH as (H1 & _). discriminate H1.
Qed.

(** On e-mails that have a recipient, [asProvider p] is [p]: its [Send] and
    its [SendBatch] return what those of [p] return, and those do not
    panic. *)
Lemma asProvider_on_recipients p ctx emails en :
  Forall hasRecipient emails ->
  (forall email en0, In email emails ->
     exists x, Builtin_Send p ctx email en0 = Builtin.Returns x
     /\ Provider.Send (asProvider p) ctx email en0
        = (match fst x with
           | inl r => (Some r, None)
           | inr err => (None, Some err)
           end, snd x))
  /\ Builtin_SendBatch p ctx emails en
     = Builtin.Returns (Provider.SendBatch (asProvider p) ctx emails en).
Proof.
  intros Hall. split.
  - intros email en0 Hin. exists (Builtin.send p ctx email en0).
    split.
    + apply Builtin_Send_on_recipient. right.
      rewrite Forall_forall in Hall. apply Hall, Hin.
    + cbn [asProvider Provider.Send].
      destruct (Builtin.send p ctx email en0) as [[r|err] en1]; reflexivity.
  - unfold Builtin_SendBatch. cbn [asProvider Provider.SendBatch].
    rewrite batchLoop_on_recipients by (right; exact Hall).
    destruct (batchSends p ctx 0 emails [] [] en) as [[succ failed] en'].
    reflexivity.
Qed.

(** X27.  The batch call of the SES, SMTP, SendGrid and Mailgun providers
    returns no error of its own.  It panics exactly when the provider's
    [Send] reads [email.To[0]] unchecked, as Mailgun's does, and some e-mail
    of the batch has no recipient.  Otherwise it returns a result and a
    [nil] error; the result accounts for every e-mail as either successful
    or failed, and the failures carry the original indices in increasing
    order, each with its e-mail and its error. *)
Theorem Builtin_SendBatch_accounts_for_every_email p ctx emails en :
  match Builtin_SendBatch p ctx emails en with
  | Builtin.Panics reason =>
      Builtin.readsFirstTo p = true
      /\ reason = "runtime error: index out of range [0] with length 0"
      /\ exists email, In email emails /\ Email.To email = []
  | Builtin.Returns ((obr, oerr), en') =>
      (Builtin.readsFirstTo p = true -> Forall hasRecipient emails)
      /\ oerr = None
      /\ exists br,
          obr = Some br
          /\ BatchResult.Total br = len emails
          /\ BatchResult.Provider br = Builtin.name p
          /\ len (BatchResult.Successful br) + len (BatchResult.Failed br)
             = len emails
          /\ increasingWithin 0 (len emails)
               (map BatchFailure.Index (BatchResult.Failed br))
          /\ Forall (listsFailedEmail 0 emails) (BatchResult.Failed br)
  end.
Proof.
  unfold Builtin_SendBatch.
  pose proof (batchLoop_outcome p ctx emails 0 [] [] en) as HL.
  destruct (batchLoop p ctx 0 emails [] [] en) as [[[succ failed] en']|reason];
    [|exact HL].
  destruct HL as [Hx Hall]. symmetry in Hx.
  apply batchSends_shape in Hx.
  destruct Hx as (sa & fa & Hs & Hf & Hsum & Hinc & Hrec).
  cbn in Hs, Hf. subst succ failed.
  split; [exact Hall|]. split; [reflexivity|].
  eexists. split; [reflexivity|]. cbn.
  repeat split; try assumption.
  - destruct Hinc as [Hsorted _]. exact Hsorted.
  - destruct Hinc as [_ Hb]. exact Hb.
Qed.

(** X28.  With such a provider as primary, [SendBatch] never degrades to
    individual sends: the fallback provider plays no part in it. *)
Theorem builtin_primary_never_degrades {lib : GoLib}
        (c : Client.t X) p ctx emails (s : Store X) :
  Client.provider c = asProvider p ->
  SendBatch c ctx emails s = SendBatch (withoutFallback c) ctx emails s.
Proof.
  intros Hp. unfold SendBatch, sendBatchWithProvider.
  destruct (closed s); [reflexivity|].
  destruct (len emails =? 0); [reflexivity|].
  destruct (validateAll 0 emails); [reflexivity|].
  cbn [withoutFallback Client.provider Client.fallback]. rewrite Hp.
  cbn [asProvider Provider.SendBatch].
  destruct (batchSends p ctx 0 emails [] [] (env s)) as [[succ failed] en'].
  reflexivity.
Qed.

End BatchLoop.

(** ** Sending from templates *)

Section TemplateProperties.
Context {lib : GoLib} {X D V : Type}.
Implicit Types (c : Client.t X) (ctx : Context)
         (req : TemplateRequest.t D V) (s : Store X).

Lemma append_inj_l (t a b : string) : t ++ a = t ++ b -> a = b.
Proof.
  induction t as [|ch t IH]; cbn; intros H; [exact H|].
  inversion H. now apply IH.
Qed.

Lemma renderPart_ext (R R' : string -> D -> Env X -> (string * option error) * Env X)
      template suffix what data s :
  (forall en, R (template ++ suffix) data en = R' (template ++ suffix) data en) ->
  renderPart R template suffix what data s
  = renderPart R' template suffix what data s.
Proof. intros H. unfold renderPart. rewrite H. reflexivity. Qed.

(** X29.  A request that carries a subject never has its subject template
    rendered: [SendTemplate] is the same whatever the engine would answer
    for the template's [.subject] name. *)
Theorem SendTemplate_keeps_given_subject
        (R R' : string -> D -> Env X -> (string * option error) * Env X)
        (sprint : V -> string) c ctx req s :
  TemplateRequest.Subject req <> "" ->
  (forall name data en,
      name <> TemplateRequest.Template req ++ ".subject" ->
      R name data en = R' name data en) ->
  SendTemplate R sprint c ctx req s = SendTemplate R' sprint c ctx req s.
Proof.
  intros Hsub Hsame. unfold SendTemplate.
  destruct (closed s); [reflexivity|].
  destruct (Client.templateEng c); [|reflexivity].
  apply String.eqb_neq in Hsub. rewrite Hsub.
  assert (Hh : forall s1, renderPart R (TemplateRequest.Template req) ".html"
                 "failed to render HTML body" (TemplateRequest.Data req) s1
               = renderPart R' (TemplateRequest.Template req) ".html"
                 "failed to render HTML body" (TemplateRequest.Data req) s1).
  { intros s1. apply renderPart_ext. intros en. apply Hsame.
    intros H. apply append_inj_l in H. discriminate H. }
  assert (Ht : forall s1, renderPart R (TemplateRequest.Template req) ".text"
                 "failed to render text body" (TemplateRequest.Data req) s1
               = renderPart R' (TemplateRequest.Template req) ".text"
                 "failed to render text body" (TemplateRequest.Data req) s1).
  { intros s1. apply renderPart_ext. intros en. apply Hsame.
    intros H. apply append_inj_l in H. discriminate H. }
  rewrite Hh.
  destruct (renderPart R' _ ".html" _ _ s) as [[h|e] s2]; [|reflexivity].
  rewrite Ht. reflexivity.
Qed.




End TemplateProperties.

(** ** The backoff product in binary64 *)

Section Binary64Delays.
Import SpecFloat.













End Binary64Delays.

(** ** Runs on the fixtures *)

Section Runs.
Import Fixtures.
#[local] Existing Instance asciiLib.

(** On the flaky client one [Send] reaches the provider four times, once
    through the breaker and three times from the retry manager, while the
    breaker, open since the first failure, has recorded a single failure. *)
Example flaky_send_run :
  exists s',
    Send flaky background toA (store0 0 0) = Ret (Some retryableErr) s'
    /\ ext (env s')
       = ["primary.Send"; "primary.Send"; "primary.Send"; "primary.Send"]
    /\ Breaker.state (breaker s') = CircuitBreakerOpen
    /\ Breaker.failureCount (breaker s') = 1.
Proof. eexists. repeat split; vm_compute; reflexivity. Qed.

(** With the breaker inside the retry loop the same call would stop at the
    open breaker after one provider call. *)
Example flaky_guarded_retry_run :
  exists s',
    SendGuardedRetry flaky background toA (store0 0 0)
    = Ret (Some ErrCircuitBreakerOpen) s'
    /\ ext (env s') = ["primary.Send"].
Proof. eexists. split; vm_compute; reflexivity. Qed.

(** C1: a call whose retry attempts do not pass the breaker. *)
Lemma C1_counterexample :
  ~ retries_pass_breaker_at flaky background toA (store0 0 0).
Proof. unfold retries_pass_breaker_at. vm_compute. discriminate. Qed.

Lemma C1_witness :
  exists err2 s2,
    Retry retry3 background (sendFn flaky background toA)
          (snd (Execute breaker1 (sendFn flaky background toA) (store0 0 0)))
    = (err2, s2)
    /\ Send flaky background toA (store0 0 0) = Ret err2 s2
    /\ breaker s2
       = breaker (snd (Execute breaker1 (sendFn flaky background toA)
                               (store0 0 0))).
Proof.
  apply (C1_retry_runs_outside_breaker flaky background toA (store0 0 0)
           (store0 0 0) breaker1 retry3 (Some retryableErr));
    [reflexivity | vm_compute; reflexivity | reflexivity | reflexivity
     | reflexivity | vm_compute; reflexivity | reflexivity].
Defined.

(** C2: three recipients against two tokens; both tokens are gone after the
    failed acquire. *)
Lemma C2_counterexample :
  ~ failed_acquire_keeps_tokens_at perRecipient background toABC (store0 0 2).
Proof.
  intros H. destruct H as (e & s' & HW & _ & Htok);
    [reflexivity | vm_compute; reflexivity |].
  vm_compute in HW. inversion HW; subst. discriminate Htok.
Qed.

Lemma C2_witness :
  Wait perRecipient background toABC (store0 0 2)
  = Ret (Some (rateLimited perRecipient)) (set_tokens (store0 0 2) 0).
Proof.
  apply (C2_failed_acquire_drains_bucket perRecipient background toABC
           (store0 0 2));
    [reflexivity | vm_compute; discriminate | reflexivity
     | vm_compute; reflexivity].
Defined.

(** C3: the batch with an invalid message 1 is refused as a whole. *)
Lemma C3_counterexample :
  ~ invalid_item_reported_in_batch_at degraded background
      [toA; noSubject; toC] (store0 0 0).
Proof.
  intros (email & v & msg & s' & _ & _ & H). vm_compute in H. discriminate H.
Qed.

Lemma C3_witness :
  SendBatch degraded background [toA; noSubject; toC] (store0 0 0)
  = Ret (Some (EWrap "email at index 1: "
                     (EValidation "subject" "subject is required")))
        (store0 0 0)
  /\ exists err s4,
       SendBatch degraded background [toA; toB; toC] (store0 0 0)
       = Ret (Some (EBatch "1/3 emails failed in fallback individual send"
                           [(1, Some err)] 3 1)) s4.
Proof.
  split.
  - apply (proj1 (C3_batch_of_three_with_fallback degraded background
                    toA noSubject toC (store0 0 0) _
                    eq_refl eq_refl eq_refl)).
    vm_compute; reflexivity.
  - eexists; eexists.
    eapply (proj2 (C3_batch_of_three_with_fallback degraded background
                     toA toB toC (store0 0 0) _
                     eq_refl eq_refl eq_refl));
      vm_compute; reflexivity.
Defined.

(** C4: three failures against a threshold of three, then a call one
    nanosecond after the last of them. *)
Lemma C4_witness :
  Breaker.state (breaker (recordFailures breaker3 threeFailures (store0 0 0)))
  = CircuitBreakerOpen
  /\ Execute breaker3 (sendFn degraded background toA)
             (set_env (recordFailures breaker3 threeFailures (store0 0 0))
                      (mkEnv 31 [] []))
     = (Some ErrCircuitBreakerOpen,
        set_env (recordFailures breaker3 threeFailures (store0 0 0))
                (mkEnv 31 [] [])).
Proof.
  destruct (C4_threshold_failures_open_and_reject breaker3 threeFailures
              (store0 0 0)) as (Hopen & _ & Hreject);
    [reflexivity | vm_compute; split; discriminate | reflexivity
     | reflexivity |].
  split; [exact Hopen|].
  apply Hreject; [reflexivity | vm_compute; reflexivity].
Defined.

(** C6: the provider is reached once, the clock has not moved. *)
Lemma C6_witness :
  Retry retry3 background (sendFn broken background toA) (store0 0 0)
  = (Some fatalErr,
     mkStore (mkEnv 0 [] ["primary.Send"]) false NewCircuitBreaker 0).
Proof.
  apply C6_non_retryable_failure_single_attempt;
    [reflexivity | vm_compute; discriminate | reflexivity | reflexivity].
Defined.

Lemma C7_witness :
  exists k email v,
    nth_error [toA; noSubject; toC] k = Some email
    /\ Validate email = Some v
    /\ (forall j email', (j < k)%nat ->
          nth_error [toA; noSubject; toC] j = Some email' ->
          Validate email' = None)
    /\ SendBatch degraded background [toA; noSubject; toC] (store0 0 0)
       = Ret (Some (EWrap ("email at index " ++ Itoa (Z.of_nat k) ++ ": ") v))
             (store0 0 0).
Proof.
  apply C7_batch_validation_is_atomic; [reflexivity|].
  exists noSubject. split; [simpl; auto | vm_compute; discriminate].
Defined.

Lemma C8_witness :
  Send flaky background noRecipient (store0 0 0)
  = Panic "runtime error: index out of range [0] with length 0"
  /\ (Valid (Email.From noRecipient) = true ->
      Validate noRecipient
      = Some (EValidation "to" "at least one recipient required")).
Proof.
  apply C8_send_empty_to_panics; reflexivity.
Defined.

(** C9: against an open breaker the call ends with the circuit-open failure
    and the store untouched, retry manager or not. *)
Lemma C9_witness :
  dispatch flaky background toA (openStore 10)
  = Ret (Some ErrCircuitBreakerOpen) (openStore 10)
  /\ Send flaky background toA (openStore 10)
     = Ret (Some ErrCircuitBreakerOpen) (openStore 10).
Proof.
  split.
  - apply (proj1 (proj2 (proj2 (proj2
             C9_rate_limited_and_circuit_open_never_retried))));
      [vm_compute; reflexivity | right; reflexivity].
  - apply (proj2 (proj2 (proj2 (proj2
             C9_rate_limited_and_circuit_open_never_retried))));
      [vm_compute; reflexivity | right; reflexivity].
Defined.

(** C10: closing a closed client does not reach the template engine. *)
Lemma C10_witness :
  Close flaky (set_closed (store0 0 0) true)
  = (None, set_closed (store0 0 0) true).
Proof.
  apply (proj1 (C10_close_idempotent flaky (set_closed (store0 0 0) true))).
  reflexivity.
Defined.

End Runs.

(** ** Further runs on the fixtures *)

Section MoreRuns.
Import Fixtures MoreFixtures.
#[local] Existing Instance asciiLib.

Lemma Validate_accepts_exactly_well_formed_witness :
  Validate toABC = None.
Proof.
  apply (proj2 (Validate_accepts_exactly_well_formed toABC)).
  unfold wellFormed. repeat split; try (vm_compute; reflexivity).
  - vm_compute. discriminate.
  - left. vm_compute. reflexivity.
Defined.

Lemma Validate_error_is_final_witness :
  exists field message,
    EValidation "subject" "subject is required" = EValidation field message
    /\ In field ["from"; "to"; "cc"; "bcc"; "subject"; "body"]
    /\ IsRetryable (Some (EValidation "subject" "subject is required")) = false
    /\ IsTemporary (Some (EValidation "subject" "subject is required")) = false
    /\ GetRetryAfter (Some (EValidation "subject" "subject is required")) = 0.
Proof.
  apply (Validate_error_is_final noSubject). vm_compute. reflexivity.
Defined.

Lemma Validate_reports_first_invalid_address_witness :
  Validate twoRecipients
  = Some (EValidation "to" "invalid recipient address at index 1").
Proof.
  destruct (Validate_reports_first_invalid_address twoRecipients
              [addr "a@example.com"] (addr "nobody") []) as (Hto & _);
    [reflexivity | reflexivity | reflexivity |].
  apply Hto. reflexivity.
Defined.

Lemma AllRecipients_of_valid_email_witness :
  1 <= TotalRecipients toABC /\ forallb Valid (AllRecipients toABC) = true.
Proof.
  apply (proj2 (AllRecipients_of_valid_email toABC)). vm_compute. reflexivity.
Defined.

Lemma classification_through_wrapping_witness :
  IsRetryable (Some (EWrap "send: " (EForeign (Some true) None None None)))
  = false
  /\ IsTemporary (Some (EWrap "send: " (EForeign (Some true) None None None)))
     = false
  /\ GetRetryAfter (Some (EWrap "send: " (EForeign (Some true) None None None)))
     = 0.
Proof.
  apply (proj2 (classification_through_wrapping ["send: "])). discriminate.
Defined.

(** Two failures with a success in between open a breaker whose threshold
    is two. *)
Lemma breaker_counts_failures_within_window_witness :
  FailureCount (recordAll breaker2 mixedResults (store0 0 0)) = 2
  /\ State (recordAll breaker2 mixedResults (store0 0 0)) = CircuitBreakerOpen.
Proof.
  apply (breaker_counts_failures_within_window breaker2 mixedResults
           (store0 0 0) 10 30);
    [reflexivity | vm_compute; discriminate | vm_compute; discriminate
     | | vm_compute; reflexivity | vm_compute; discriminate].
  intros r en [H|[H|[H|[]]]]; inversion H; subst; vm_compute;
    split; discriminate.
Defined.

(** A probe that fails, a minute after the last failure. *)
Lemma open_breaker_probes_after_timeout_witness :
  State (snd (Execute breaker3 (failWith retryableErr) (openStore 60000000000)))
  = CircuitBreakerOpen
  /\ Breaker.lastFailTime
       (breaker (snd (Execute breaker3 (failWith retryableErr)
                              (openStore 60000000000))))
     = 60000000000
  /\ FailureCount (snd (Execute breaker3 (failWith retryableErr)
                                (openStore 60000000000)))
     = incr (FailureCount (openStore 60000000000)).
Proof.
  destruct (open_breaker_probes_after_timeout breaker3 (failWith retryableErr)
              (openStore 60000000000)) as (_ & Hfail & _);
    [reflexivity | reflexivity | vm_compute; discriminate |].
  apply (Hfail retryableErr
           (set_env (set_breaker (openStore 60000000000)
                       (Breaker.mk CircuitBreakerHalfOpen 1 0 0))
                    (note "work" (mkEnv 60000000000 [] []))));
    reflexivity.
Defined.

Lemma half_open_closes_at_success_threshold_witness :
  State (recordAll breaker2 [(None, mkEnv 5 [] [])] halfOpenStore)
  = CircuitBreakerHalfOpen
  /\ FailureCount (recordAll breaker2 [(None, mkEnv 5 [] [])] halfOpenStore)
     = 3
  /\ State (recordResult breaker2 None
              (set_env (recordAll breaker2 [(None, mkEnv 5 [] [])] halfOpenStore)
                       (mkEnv 6 [] [])))
     = CircuitBreakerClosed
  /\ FailureCount (recordResult breaker2 None
              (set_env (recordAll breaker2 [(None, mkEnv 5 [] [])] halfOpenStore)
                       (mkEnv 6 [] [])))
     = 0.
Proof.
  apply (half_open_closes_at_success_threshold breaker2 [mkEnv 5 [] []]
           (mkEnv 6 [] []) halfOpenStore);
    [reflexivity | reflexivity | vm_compute; split; discriminate | reflexivity].
Defined.

Lemma closed_breaker_stable_under_success_witness :
  fst (executeAll breaker1 [succeed; succeed; succeed] (store0 0 0))
  = [None; None; None]
  /\ State (snd (executeAll breaker1 [succeed; succeed; succeed] (store0 0 0)))
     = CircuitBreakerClosed
  /\ FailureCount (snd (executeAll breaker1 [succeed; succeed; succeed]
                                   (store0 0 0))) = 0.
Proof.
  apply (closed_breaker_stable_under_success breaker1
           [succeed; succeed; succeed] (store0 0 0));
    [reflexivity | reflexivity |].
  intros fn [H|[H|[H|[]]]] s'; subst fn; split; reflexivity.
Defined.

Lemma Wait_takes_the_weight_witness :
  Wait perRecipient background toABC (store0 0 5)
  = Ret None (set_tokens (store0 0 5) 2).
Proof.
  apply (Wait_takes_the_weight perRecipient background toABC (store0 0 5));
    [reflexivity | reflexivity | vm_compute; discriminate].
Defined.

Lemma burst_then_refusal_then_refill_witness :
  (RateLimitConfig.Rate perCall <> 0
   /\ 0 < div64 (RateLimitConfig.Period perCall) (RateLimitConfig.Rate perCall))
  /\ waits perCall background toA 3 (set_tokens (store0 0 0) 3)
     = Ret [None; None; None] (store0 0 0)
  /\ Wait perCall background toA (store0 0 0)
     = Ret (Some (rateLimited perCall)) (store0 0 0)
  /\ (1 <= RateLimitConfig.Burst perCall ->
      refillTokens perCall 1 (store0 0 0) = Ret tt (set_tokens (store0 0 0) 1)
      /\ Wait perCall background toA (set_tokens (store0 0 0) 1)
         = Ret None (store0 0 0)).
Proof.
  apply (burst_then_refusal_then_refill perCall background toA (store0 0 0)
           (set_tokens (store0 0 0) 3));
    [reflexivity | reflexivity | reflexivity | reflexivity].
Defined.

Lemma bucket_never_exceeds_burst_witness :
  Z.of_nat (tokens (refillTick perCall
                      (refillTick perCall (set_tokens (store0 0 0) 2))))
  <= 3.
Proof.
  apply (bucket_never_exceeds_burst perCall
           [Acquire background toA; Tick; Tick] (store0 0 0)
           (set_tokens (store0 0 0) 3));
    reflexivity.
Defined.

Lemma Wait_cancelled_on_empty_bucket_witness :
  Wait perCall cancelled toA (store0 5 0)
  = Ret (Some context_Canceled) (store0 5 0).
Proof.
  apply (Wait_cancelled_on_empty_bucket perCall cancelled toA (store0 5 0));
    [reflexivity | reflexivity | reflexivity | vm_compute; discriminate].
Defined.

Lemma Wait_zero_rate_panics_on_shortage_witness :
  Wait zeroRate background toABC (store0 0 2)
  = Panic "runtime error: integer divide by zero".
Proof.
  apply (Wait_zero_rate_panics_on_shortage zeroRate background toABC
           (store0 0 2));
    [reflexivity | reflexivity | reflexivity | vm_compute; reflexivity].
Defined.

(** The provider refused the message and [Send] reports success. *)
Lemma Retry_without_attempts_reports_success_witness :
  Retry retry0 background (failWith retryableErr) (store0 0 0)
  = (None, store0 0 0)
  /\ dispatch (Client.mk (failing "primary" retryableErr) None None
                         (Some retry0) None None)
              background toA (store0 0 0)
     = Ret None (mkStore (mkEnv 0 [] ["primary.Send"]) false
                         NewCircuitBreaker 0).
Proof.
  destruct (Retry_without_attempts_reports_success retry0 background
              (failWith retryableErr)) as [H1 H2];
    [reflexivity | vm_compute; discriminate |].
  split; [apply H1|].
  apply (H2 _ toA (store0 0 0) retryableErr); reflexivity.
Defined.

Lemma Retry_makes_exactly_MaxAttempts_attempts_witness :
  exists e s',
    Retry retry3 background (failWith retryableErr) (store0 0 0) = (Some e, s')
    /\ IsRetryable (Some e) = true
    /\ calls (ext (env s')) = (calls (ext (env (store0 0 0))) + 3)%nat.
Proof.
  apply (Retry_makes_exactly_MaxAttempts_attempts retry3 background
           (failWith retryableErr) calls (store0 0 0));
    [reflexivity | vm_compute; discriminate | reflexivity |].
  intros s. exists retryableErr, (set_env s (note "work" (env s))).
  repeat split.
Defined.

Lemma Retry_stops_on_cancellation_witness :
  Retry retry3 cancelled (failWith retryableErr) (store0 5 0)
  = (Some context_Canceled,
     mkStore (mkEnv 5 [] ["work"]) false NewCircuitBreaker 0).
Proof.
  apply (Retry_stops_on_cancellation retry3 cancelled (failWith retryableErr)
           (store0 5 0) retryableErr
           (mkStore (mkEnv 5 [] ["work"]) false NewCircuitBreaker 0) 0);
    [reflexivity | vm_compute; discriminate | reflexivity | reflexivity
     | reflexivity | vm_compute; reflexivity].
Defined.

(** The second attempt runs seven seconds after the first, not the hundred
    milliseconds of the configuration. *)
Lemma Retry_honours_retry_after_witness :
  Retry retry2 background (failWith throttled) (store0 0 0)
  = failWith throttled
      (mkStore (mkEnv 7000000000 [] ["work"]) false NewCircuitBreaker 0).
Proof.
  apply (Retry_honours_retry_after retry2 background (failWith throttled)
           (store0 0 0) throttled
           (mkStore (mkEnv 0 [] ["work"]) false NewCircuitBreaker 0));
    [reflexivity | reflexivity | reflexivity | reflexivity | reflexivity
     | vm_compute; reflexivity].
Defined.

Lemma calculateDelay_jitter_bounds_witness :
  200000000
  <= fst (calculateDelay jittery 2
            (mkStore (mkEnv 0 [123456789] ([] : Log)) false NewCircuitBreaker 0))
  < 200000000 + Z.max 1 20000000.
Proof.
  apply (calculateDelay_jitter_bounds jittery 2
           (mkStore (mkEnv 0 [123456789] ([] : Log)) false NewCircuitBreaker 0));
    vm_compute; discriminate.
Defined.

Lemma Send_refuses_invalid_email_witness :
  Send flaky background noSubject (store0 0 0)
  = Ret (Some (EValidation "subject" "subject is required")) (store0 0 0)
  /\ IsRetryable (Some (EValidation "subject" "subject is required")) = false.
Proof.
  apply (Send_refuses_invalid_email flaky background noSubject (store0 0 0));
    [reflexivity | vm_compute; discriminate | vm_compute; reflexivity].
Defined.

Lemma fallback_success_hides_primary_failure_witness :
  Send backedUp background toA (store0 0 0)
  = Ret None (recordResult breaker3 None
                (set_env (store0 0 0)
                   (mkEnv 0 [] ["fallback.Send"; "primary.Send"])))
  /\ State (recordResult breaker3 None
                (set_env (store0 0 0)
                   (mkEnv 0 [] ["fallback.Send"; "primary.Send"])))
     = CircuitBreakerClosed
  /\ (FailureCount (recordResult breaker3 None
                (set_env (store0 0 0)
                   (mkEnv 0 [] ["fallback.Send"; "primary.Send"])))
      = FailureCount (store0 0 0)
      \/ FailureCount (recordResult breaker3 None
                (set_env (store0 0 0)
                   (mkEnv 0 [] ["fallback.Send"; "primary.Send"])))
         = 0).
Proof.
  apply (fallback_success_hides_primary_failure backedUp background toA
           (store0 0 0) (store0 0 0)
           (choosy "fallback" "nobody" fatalErr None)
           None retryableErr (mkEnv 0 [] ["primary.Send"])
           (Some (SendResult.mk "id" "fallback" 0))
           (mkEnv 0 [] ["fallback.Send"; "primary.Send"]));
    reflexivity.
Defined.

Lemma non_retryable_failure_ends_Send_witness :
  Send broken background toA (store0 0 0)
  = Ret (Some fatalErr) (set_env (store0 0 0) (mkEnv 0 [] ["primary.Send"])).
Proof.
  apply (non_retryable_failure_ends_Send broken background toA (store0 0 0)
           (store0 0 0) None);
    reflexivity.
Defined.

Lemma Send_calls_provider_once_more_than_MaxAttempts_witness :
  exists e s',
    Send stubborn background toA (store0 0 0) = Ret (Some e) s'
    /\ IsRetryable (Some e) = true
    /\ calls (ext (env s')) = (calls (ext (env (store0 0 0))) + 1 + 3)%nat.
Proof.
  apply (Send_calls_provider_once_more_than_MaxAttempts stubborn background
           toA (store0 0 0) (store0 0 0) retry3 calls);
    try reflexivity; [vm_compute; discriminate |].
  intros en. exists None, retryableErr, (note "primary.Send" en).
  repeat split.
Defined.

Lemma SendBatch_relays_provider_result_witness :
  SendBatch partial background [toA; toB; toC] (store0 0 0)
  = Ret (Some (EBatch "1/3 emails failed" [(1, Some fatalErr)] 3 1))
        (set_env (store0 0 0) (mkEnv 0 [] ["primary.SendBatch"])).
Proof.
  destruct (SendBatch_relays_provider_result partial background
              [toA; toB; toC] (store0 0 0)
              (mkEnv 0 [] ["primary.SendBatch"])) as (Hres & _);
    [reflexivity | discriminate
     | intros email [H|[H|[H|[]]]]; subst email; vm_compute; reflexivity |].
  apply (Hres (BatchResult.mk 3 [] [BatchFailure.mk 1 toB (Some fatalErr)]
                              "primary")).
  reflexivity.
Defined.


Lemma builtin_primary_never_degrades_witness :
  SendBatch viaSmtp background [toA; toB; toC] (store0 0 0)
  = SendBatch (withoutFallback viaSmtp) background [toA; toB; toC] (store0 0 0).
Proof.
  apply (builtin_primary_never_degrades viaSmtp smtpLike). reflexivity.
Defined.

Lemma SendTemplate_keeps_given_subject_witness :
  SendTemplate (renderFrom welcomeTemplates []) Itoa templated background
               (welcome "Hi there") (store0 0 0)
  = SendTemplate (renderFrom welcomeTemplates ["welcome.subject"]) Itoa
                 templated background (welcome "Hi there") (store0 0 0).
Proof.
  apply SendTemplate_keeps_given_subject; [discriminate|].
  intros name data en Hname. unfold renderFrom. cbn [existsb].
  destruct (String.eqb_spec name "welcome.subject") as [->|_];
    [exfalso; apply Hname; reflexivity | reflexivity].
Defined.


(** A batch with an e-mail without recipient makes the batch call of a
    provider that reads the first recipient unchecked panic; one that does
    not read it goes through the whole batch. *)
Example unchecked_first_recipient_run :
  Builtin_SendBatch mailgunLike background [toA; noRecipient; toB]
                    (mkEnv 0 [] [])
  = Builtin.Panics "runtime error: index out of range [0] with length 0"
  /\ exists br en,
      Builtin_SendBatch smtpLike background [toA; noRecipient; toB]
                        (mkEnv 0 [] [])
      = Builtin.Returns ((Some br, None), en)
      /\ map BatchFailure.Index (BatchResult.Failed br) = [2].
Proof. split; [reflexivity|]. eexists; eexists. split; reflexivity. Qed.


(** The same with a fractional product: 100000001 ns growing by half give
    150000001 ns at attempt 2, where the formula gives 150000001.5. *)
Example truncated_delay_run :
  fst (@calculateDelay amd64 Log oddWait 2 (store0 0 0)) = 150000001
  /\ (exists q,
        formulaDelay (fun _ => MinInt64) asciiLib oddWait 2 = Some q
        /\ QArith_base.Qeq q (QArith_base.Qmake 300000003 2))
  /\ ~ delay_exact_at (fun _ => MinInt64) asciiLib oddWait 2 (store0 0 0).
Proof.
  split; [vm_compute; reflexivity|].
  split; [eexists; split; [vm_compute; reflexivity | vm_compute; reflexivity]|].
  intros H. destruct H as (q & Hq & He);
    [reflexivity | vm_compute; split; discriminate |].
  vm_compute in Hq. inversion Hq; subst q. clear Hq.
  vm_compute in He. discriminate He.
Qed.


End MoreRuns.
